(** * computeSales.py: total sales from a price catalogue and a sales record

    A shallow embedding of [computeSales.py] and of the fragment of the
    Python runtime it runs on: the objects [json.load] produces, the
    exceptions that the calls of the program raise, binary64 arithmetic
    and the console.  Each function of the program is a Rocq function of
    the same name; the statements about them follow the definitions. *)

From Stdlib Require Import ZArith List String Ascii Bool Lia.
From Stdlib Require Import Floats.SpecFloat.
Import ListNotations.

Local Open Scope string_scope.
Local Open Scope Z_scope.

(** ** Python objects *)

Module Py.

(** *** Floats: IEEE 754 binary64, round to nearest even *)

Definition prec : Z := 53.
Definition emax : Z := 1024.

Definition float : Type := spec_float.

Definition fadd : float -> float -> float := SFadd prec emax.
Definition fsub : float -> float -> float := SFsub prec emax.
Definition fmul : float -> float -> float := SFmul prec emax.

Definition fzero : float := S754_zero false.
Definition fone : float := S754_finite false 4503599627370496 (-52).

Definition is_zero (x : float) : bool :=
  match x with S754_zero _ => true | _ => false end.


(** The exceptions the program can meet.  [OSError] stands for the
    operating-system errors other than [FileNotFoundError]. *)
Inductive exn : Type :=
  | AttributeError
  | TypeError
  | ValueError
  | OverflowError
  | KeyError
  | OSError
  | FileNotFoundError
  | JSONDecodeError
  | UnicodeDecodeError
  | UnicodeEncodeError
  | RecursionError
  | SystemExit (code : Z).

(** [isinstance e c]: an exception [e] is caught by [except c].
    [FileNotFoundError] derives from [OSError]; [JSONDecodeError],
    [UnicodeDecodeError] and [UnicodeEncodeError] derive from
    [ValueError]; [RecursionError] from none of the classes here. *)
Definition isinstance (e c : exn) : bool :=
  match c, e with
  | AttributeError, AttributeError => true
  | TypeError, TypeError => true
  | ValueError,
    (ValueError | JSONDecodeError | UnicodeDecodeError | UnicodeEncodeError)
      => true
  | OverflowError, OverflowError => true
  | KeyError, KeyError => true
  | OSError, (OSError | FileNotFoundError) => true
  | FileNotFoundError, FileNotFoundError => true
  | JSONDecodeError, JSONDecodeError => true
  | UnicodeDecodeError, UnicodeDecodeError => true
  | UnicodeEncodeError, UnicodeEncodeError => true
  | RecursionError, RecursionError => true
  | SystemExit _, SystemExit _ => true
  | _, _ => false
  end.

Inductive result (A : Type) : Type :=
  | Ok (a : A)
  | Raise (e : exn).
Arguments Ok {A} a.
Arguments Raise {A} e.

(** [float(n)] for an [int]: the nearest float, [OverflowError] when it
    is out of range. *)
Definition float_of_int (z : Z) : result float :=
  match binary_normalize prec emax z 0 false with
  | S754_infinity _ => Raise OverflowError
  | f => Ok f
  end.

(** *** Strings

    A [str] is the sequence of its code points; a string literal stands
    for the string of its characters. *)

Definition str : Type := list N.

Definition text (s : string) : str :=
  map N_of_ascii (list_ascii_of_string s).
Coercion text : string >-> str.

Fixpoint str_eqb (a b : str) : bool :=
  match a, b with
  | [], [] => true
  | x :: a', y :: b' => (x =? y)%N && str_eqb a' b'
  | _, _ => false
  end.

(** A string can be written to a UTF-8 console or file unless it holds
    a surrogate code point, as the JSON string ["\ud800"] does. *)
Definition is_surrogate (c : N) : bool :=
  ((55296 <=? c) && (c <=? 57343))%N.

Definition encodable (s : str) : bool :=
  forallb (fun c => negb (is_surrogate c)) s.

Definition has_nul (s : str) : bool := existsb (N.eqb 0) s.

(** A file name goes to the operating system as UTF-8, in which the
    code points U+DC80 to U+DCFF stand for the bytes that were not UTF-8
    when the name came in; no other surrogate can be passed on. *)
Definition is_escaped_byte (c : N) : bool :=
  ((56448 <=? c) && (c <=? 56575))%N.

Definition fs_encodable (s : str) : bool :=
  forallb (fun c => negb (is_surrogate c) || is_escaped_byte c) s.

(** *** [float(s)] for a [str]

    The string is first brought to ASCII: a code point below 127 stays,
    a white-space character becomes a space, a decimal digit of any
    script the ASCII digit of its value, and at any other character the
    string ends in a question mark.  The tables are those of Unicode
    14.0. *)

Definition is_unicode_space (c : N) : bool :=
  ((c =? 133) || (c =? 160) || (c =? 5760)
   || ((8192 <=? c) && (c <=? 8202))
   || (c =? 8232) || (c =? 8233) || (c =? 8239) || (c =? 8287)
   || (c =? 12288))%N.

(** The code points of the digit zero in the scripts other than ASCII;
    the nine that follow each are its digits one to nine. *)
Definition decimal_zeros : list N :=
  [1632; 1776; 1984; 2406; 2534; 2662; 2790; 2918; 3046; 3174; 3302; 3430;
   3558; 3664; 3792; 3872; 4160; 4240; 6112; 6160; 6470; 6608; 6784; 6800;
   6992; 7088; 7232; 7248; 42528; 43216; 43264; 43472; 43504; 43600; 44016;
   65296; 66720; 68912; 69734; 69872; 69942; 70096; 70384; 70736; 70864;
   71248; 71360; 71472; 71904; 72016; 72784; 73040; 73120; 92768; 92864;
   93008; 120782; 120792; 120802; 120812; 120822; 123200; 123632; 125264;
   130032]%N.

Definition decimal_of (c : N) : option N :=
  match find (fun z => (z <=? c) && (c <? z + 10))%N decimal_zeros with
  | Some z => Some (c - z)%N
  | None => None
  end.

Fixpoint to_ascii (s : str) : list ascii :=
  match s with
  | [] => []
  | c :: s' =>
      if (c <? 127)%N then ascii_of_N c :: to_ascii s'
      else if is_unicode_space c then " "%char :: to_ascii s'
      else
        match decimal_of c with
        | Some d => ascii_of_N (48 + d) :: to_ascii s'
        | None => ["?"%char]
        end
  end.

(** Leading and trailing ASCII white space is then ignored. *)
Definition is_space (c : ascii) : bool :=
  let n := N_of_ascii c in
  (((9 <=? n) && (n <=? 13)) || (n =? 32))%N.

Definition digit_of (c : ascii) : option Z :=
  let n := N_of_ascii c in
  if ((48 <=? n) && (n <=? 57))%N then Some (Z.of_N n - 48) else None.

Definition is_digit (c : ascii) : bool :=
  match digit_of c with Some _ => true | None => false end.

Definition lower (c : ascii) : ascii :=
  let n := N_of_ascii c in
  if ((65 <=? n) && (n <=? 90))%N then ascii_of_N (n + 32) else c.

(** An underscore is legal only between two digits; the legal ones are
    dropped before anything else is looked at.  [prev] is the character
    before the head of the list. *)
Fixpoint drop_underscores (prev : option ascii) (l : list ascii)
  : option (list ascii) :=
  match l with
  | [] =>
      match prev with
      | Some "_"%char => None
      | _ => Some []
      end
  | c :: l' =>
      if Ascii.eqb c "_" then
        match prev with
        | Some p => if is_digit p then drop_underscores (Some c) l' else None
        | None => None
        end
      else
        let bad :=
          match prev with
          | Some "_"%char => negb (is_digit c)
          | _ => false
          end in
        if bad then None
        else option_map (cons c) (drop_underscores (Some c) l')
  end.

Fixpoint lstrip (l : list ascii) : list ascii :=
  match l with
  | c :: l' => if is_space c then lstrip l' else l
  | [] => []
  end.

Definition strip (l : list ascii) : list ascii :=
  rev (lstrip (rev (lstrip l))).

(** A run of digits: its value continued from [acc], how many digits were
    read, and what follows. *)
Fixpoint read_digits (acc : Z) (n : Z) (l : list ascii)
  : Z * Z * list ascii :=
  match l with
  | c :: l' =>
      match digit_of c with
      | Some d => read_digits (10 * acc + d) (n + 1) l'
      | None => (acc, n, l)
      end
  | [] => (acc, n, [])
  end.

Definition read_sign (l : list ascii) : bool * list ascii :=
  match l with
  | "-"%char :: l' => (true, l')
  | "+"%char :: l' => (false, l')
  | _ => (false, l)
  end.

(** An exponent part is read only when it is complete; otherwise the
    number ends before the letter e. *)
Definition read_exponent (l : list ascii) : Z * list ascii :=
  match l with
  | c :: l' =>
      if Ascii.eqb (lower c) "e" then
        let '(neg, l'') := read_sign l' in
        let '(v, n, rest) := read_digits 0 0 l'' in
        if n =? 0 then (0, l) else ((if neg then - v else v), rest)
      else (0, l)
  | [] => (0, [])
  end.

(** The float nearest to [m * 10 ^ e10], for [m] positive. *)
Definition float_of_decimal (neg : bool) (m : positive) (e10 : Z) : float :=
  if 0 <=? e10
  then binary_normalize prec emax
         ((if neg then Z.neg m else Z.pos m) * 10 ^ e10) 0 false
  else SFdiv prec emax (S754_finite neg m 0)
         (S754_finite false (Z.to_pos (10 ^ (- e10))) 0).

Definition parse_decimal (neg : bool) (l : list ascii) : option float :=
  let '(ip, ni, l1) := read_digits 0 0 l in
  let '(m, nf, l2) :=
    match l1 with
    | "."%char :: l1' =>
        let '(m, nf, l2) := read_digits ip 0 l1' in (m, nf, l2)
    | _ => (ip, 0, l1)
    end in
  if ni + nf =? 0 then None
  else
    let '(e, l3) := read_exponent l2 in
    match l3 with
    | [] =>
        Some match m with
             | Z.pos p => float_of_decimal neg p (e - nf)
             | _ => S754_zero neg
             end
    | _ => None
    end.

Definition parse_inf_or_nan (neg : bool) (l : list ascii) : option float :=
  let w := string_of_list_ascii (map lower l) in
  if String.eqb w "inf" || String.eqb w "infinity" then Some (S754_infinity neg)
  else if String.eqb w "nan" then Some S754_nan
  else None.

Definition float_of_string (s : str) : result float :=
  match drop_underscores None (to_ascii s) with
  | None => Raise ValueError
  | Some l =>
      let '(neg, body) := read_sign (strip l) in
      match parse_decimal neg body with
      | Some f => Ok f
      | None =>
          match parse_inf_or_nan neg body with
          | Some f => Ok f
          | None => Raise ValueError
          end
      end
  end.

(** *** The objects [json.load] returns *)

(** A dictionary key stands for its class under [==]: [True], [1] and
    [1.0] are one key, so a number that is an integer is kept as that
    integer, and a float that is not an integer as itself (floats are in
    canonical form; the decoder has one [nan] object, which is found
    again by identity). *)
Inductive key : Type :=
  | KNone
  | KInt (z : Z)
  | KFloat (f : float)
  | KStr (s : str).

#[local] Unset Elimination Schemes.
Inductive value : Type :=
  | VNone
  | VBool (b : bool)
  | VInt (z : Z)
  | VFloat (f : float)
  | VStr (s : str)
  | VList (l : list value)
  | VDict (d : list (key * value)).
#[local] Set Elimination Schemes.

(** A [dict] keeps its items in insertion order, one per key. *)
Definition dict : Type := list (key * value).

Definition is_none (v : value) : bool :=
  match v with VNone => true | _ => false end.

(** [bool(v)], as [if v], [not v] and [v and ...] compute it. *)
Definition truthy (v : value) : bool :=
  match v with
  | VNone => false
  | VBool b => b
  | VInt z => negb (z =? 0)
  | VFloat f => negb (is_zero f)
  | VStr s => match s with [] => false | _ :: _ => true end
  | VList l => match l with [] => false | _ :: _ => true end
  | VDict d => match d with [] => false | _ :: _ => true end
  end.

(** The integer a float is equal to, when there is one. *)
Definition integral (f : float) : option Z :=
  match f with
  | S754_zero _ => Some 0
  | S754_finite s m e =>
      if 0 <=? e then Some (cond_Zopp s (Z.pos m * 2 ^ e))
      else if (Z.pos m) mod 2 ^ (- e) =? 0
           then Some (cond_Zopp s (Z.pos m / 2 ^ (- e)))
           else None
  | _ => None
  end.

(** [hash(v)]: lists and dictionaries are unhashable. *)
Definition key_of (v : value) : result key :=
  match v with
  | VNone => Ok KNone
  | VBool b => Ok (KInt (Z.b2z b))
  | VInt z => Ok (KInt z)
  | VFloat f => Ok match integral f with Some z => KInt z | None => KFloat f end
  | VStr s => Ok (KStr s)
  | VList _ | VDict _ => Raise TypeError
  end.

Definition value_of_key (k : key) : value :=
  match k with
  | KNone => VNone
  | KInt z => VInt z
  | KFloat f => VFloat f
  | KStr s => VStr s
  end.

Definition same_float (x y : float) : bool :=
  match x, y with
  | S754_zero a, S754_zero b => Bool.eqb a b
  | S754_infinity a, S754_infinity b => Bool.eqb a b
  | S754_nan, S754_nan => true
  | S754_finite a m e, S754_finite b n f =>
      Bool.eqb a b && Pos.eqb m n && Z.eqb e f
  | _, _ => false
  end.

Definition key_eqb (a b : key) : bool :=
  match a, b with
  | KNone, KNone => true
  | KInt x, KInt y => x =? y
  | KFloat x, KFloat y => same_float x y
  | KStr x, KStr y => str_eqb x y
  | _, _ => false
  end.

Fixpoint lookup (k : key) (d : dict) : option value :=
  match d with
  | [] => None
  | (k', v) :: d' => if key_eqb k k' then Some v else lookup k d'
  end.

(** [d[k] = v] on the items of [d]: an existing key keeps its place. *)
Fixpoint store (k : key) (v : value) (d : dict) : dict :=
  match d with
  | [] => [(k, v)]
  | (k', v') :: d' =>
      if key_eqb k k' then (k', v) :: d' else (k', v') :: store k v d'
  end.

(** *** Computations that may raise, and computations that also print *)

Class Monad (M : Type -> Type) : Type := {
  ret : forall {A : Type}, A -> M A;
  bind : forall {A B : Type}, M A -> (A -> M B) -> M B
}.

#[global] Instance result_monad : Monad result := {
  ret := fun A a => Ok a;
  bind := fun A B m k => match m with Ok a => k a | Raise e => Raise e end
}.

(** What a computation wrote, in order, and how it ended.  What was
    written before an exception stays written. *)
Definition io (E A : Type) : Type := list E * result A.

#[global] Instance io_monad (E : Type) : Monad (io E) := {
  ret := fun A a => ([], Ok a);
  bind := fun A B m k =>
    match m with
    | (out, Ok a) => let (out', r) := k a in ((out ++ out')%list, r)
    | (out, Raise e) => (out, Raise e)
    end
}.

Definition emit {E : Type} (e : E) : io E unit := ([e], Ok tt).
Definition lift {E A : Type} (r : result A) : io E A := ([], r).
Definition raise {E A : Type} (e : exn) : io E A := ([], Raise e).

(** [try: m  except c1: h1  except c2: h2 ...]: the first clause one of
    whose classes the exception is an instance of handles it. *)
Fixpoint find_handler {H : Type} (e : exn) (hs : list (list exn * H))
  : option H :=
  match hs with
  | [] => None
  | (cs, h) :: hs' =>
      if existsb (isinstance e) cs then Some h else find_handler e hs'
  end.

Definition try_except {E A : Type} (m : io E A)
    (hs : list (list exn * (exn -> io E A))) : io E A :=
  match m with
  | (out, Raise e) =>
      match find_handler e hs with
      | Some h => let (out', r) := h e in ((out ++ out')%list, r)
      | None => m
      end
  | _ => m
  end.

(** [for x in l: s = body s x] *)
Fixpoint for_in {M : Type -> Type} `{Monad M} {S X : Type}
    (l : list X) (body : S -> X -> M S) (s : S) : M S :=
  match l with
  | [] => ret s
  | x :: l' => bind (body s x) (for_in l' body)
  end.

(** *** The operations the program applies to objects *)

(** [iter(v)]: the elements of a list, the keys of a dictionary, the
    characters of a string. *)
Definition iter (v : value) : result (list value) :=
  match v with
  | VList l => Ok l
  | VDict d => Ok (map (fun kv => value_of_key (fst kv)) d)
  | VStr s => Ok (map (fun c => VStr [c]) s)
  | _ => Raise TypeError
  end.

(** [obj.get(name)]: only a dictionary has the method; an absent key
    gives [None]. *)
Definition get (obj : value) (name : string) : result value :=
  match obj with
  | VDict d =>
      Ok match lookup (KStr name) d with Some v => v | None => VNone end
  | _ => Raise AttributeError
  end.

(** [k in d] *)
Definition contains (d : dict) (k : value) : result bool :=
  match key_of k with
  | Ok k' => Ok match lookup k' d with Some _ => true | None => false end
  | Raise e => Raise e
  end.

(** [d[k]] *)
Definition getitem (d : dict) (k : value) : result value :=
  match key_of k with
  | Ok k' =>
      match lookup k' d with Some v => Ok v | None => Raise KeyError end
  | Raise e => Raise e
  end.

(** [d[k] = v] *)
Definition setitem (d : dict) (k v : value) : result dict :=
  match key_of k with
  | Ok k' => Ok (store k' v d)
  | Raise e => Raise e
  end.

(** [float(v)] *)
Definition to_float (v : value) : result float :=
  match v with
  | VBool b => Ok (if b then fone else fzero)
  | VInt z => float_of_int z
  | VFloat f => Ok f
  | VStr s => float_of_string s
  | VNone | VList _ | VDict _ => Raise TypeError
  end.

(** [v * q] for a float [q]: a number is converted to a float first;
    nothing else can be multiplied by a float. *)
Definition mul_float (v : value) (q : float) : result float :=
  match v with
  | VBool _ | VInt _ | VFloat _ =>
      match to_float v with
      | Ok p => Ok (fmul p q)
      | Raise e => Raise e
      end
  | _ => Raise TypeError
  end.

End Py.

(** ** The program *)

Module computeSales.
Import Py.

Notation "x <- m ;; k" := (bind m (fun x => k))
  (at level 100, m at next level, right associativity).

(** *** The console and the files *)

(** [results_str]: the report for a total and an elapsed time, as the
    values its text is formatted from. *)
Record report : Type := {
  total_cost : float;
  elapsed_time : float
}.

(** One constructor per [print] call of the program, with the values
    its text interpolates. *)
Inductive message : Type :=
  | FileNotFound (filename : str)
  | InvalidJson (filename : str)
  | UnexpectedReadError (filename : str) (e : exn)
  | InvalidSale (sale : value)
  | InvalidQuantity (product_name quantity : value)
  | UnknownProduct (product_name : value)
  | Usage
  | Results (results_str : report)
  | WriteError (e : exn).

Inductive event : Type :=
  | Print (m : message)
  | OpenRead (filename : str)
  | OpenWrite (filename : str).

(** [{v}] in an f-string puts a string in as it is, and any other
    object as its [repr], in which what cannot be encoded is escaped.
    (An integer is taken to have a [repr]: the decoder returns none of
    more digits than the interpreter prints.) *)
Definition interpolable (v : value) : bool :=
  match v with
  | VStr s => encodable s
  | _ => true
  end.

(** The text of a message can be written unless a string put into it
    holds a surrogate; the text of an error shows a file name as its
    [repr]. *)
Definition printable (m : message) : bool :=
  match m with
  | FileNotFound filename | InvalidJson filename
  | UnexpectedReadError filename _ => encodable filename
  | InvalidSale sale => interpolable sale
  | InvalidQuantity product_name quantity =>
      interpolable product_name && interpolable quantity
  | UnknownProduct product_name => interpolable product_name
  | Usage | Results _ | WriteError _ => true
  end.

(** [print(...)] on a console that takes UTF-8, as under a UTF-8
    locale: a text that cannot be encoded raises [UnicodeEncodeError],
    and nothing of it is written. *)
Definition print (m : message) : io event unit :=
  if printable m then emit (Print m) else raise UnicodeEncodeError.

(** What a path holds, by what [open] and [json.load] do with it:
    nothing; something that cannot be opened or read; bytes that are not
    UTF-8; text that is not JSON; a JSON document that the decoder gives
    up on, because it is nested deeper than the interpreter recurses or
    because it has an integer of more digits than the interpreter
    converts; a JSON document that the decoder turns into a value; the
    report; what a failed write leaves of it in a file that was opened
    for writing, from nothing to all of the text. *)
Inductive file : Type :=
  | Missing
  | Unreadable
  | NotUtf8
  | NotJson
  | TooDeep
  | TooLong
  | Json (v : value)
  | ReportText (r : report)
  | Truncated.

(** A file system gives what each name holds.  Files are told apart by
    name: no file has two names. *)
Definition filesystem : Type := str -> file.

(** [json.load(file)] on an open file: bytes that are not UTF-8 make
    the read raise [UnicodeDecodeError]; text that is not a JSON
    document, as the report and its beginnings are, makes the decoder
    raise [JSONDecodeError]; a document too deep makes it raise
    [RecursionError], an integer too long [ValueError].  [open] has
    raised before that for a missing file, [FileNotFoundError], and for
    another operating-system failure, [OSError]. *)
Definition read_json (f : file) : result value :=
  match f with
  | Missing => Raise FileNotFoundError
  | Unreadable => Raise OSError
  | NotUtf8 => Raise UnicodeDecodeError
  | NotJson | ReportText _ | Truncated => Raise JSONDecodeError
  | TooDeep => Raise RecursionError
  | TooLong => Raise ValueError
  | Json v => Ok v
  end.

(** [with open(filename, 'r', encoding='utf-8') as file: json.load(file)];
    [open] first encodes the name, [UnicodeEncodeError] when it cannot,
    and does not take a name with a NUL in it, [ValueError]. *)
Definition open_and_load (fs : filesystem) (filename : str)
  : io event value :=
  _ <- emit (OpenRead filename) ;;
  if negb (fs_encodable filename) then raise UnicodeEncodeError
  else if has_nul filename then raise ValueError
  else lift (read_json (fs filename)).

(** *** [load_json_file] *)

Definition load_json_file (fs : filesystem) (filename : str)
  : io event value :=
  try_except
    (data <- open_and_load fs filename ;;
     ret data)
    [ ([FileNotFoundError],
        fun _ => _ <- print (FileNotFound filename) ;; ret VNone);
      ([JSONDecodeError],
        fun _ => _ <- print (InvalidJson filename) ;; ret VNone);
      ([OSError; TypeError],
        fun e => _ <- print (UnexpectedReadError filename e) ;; ret VNone) ].

(** *** [create_price_catalogue] *)

Definition add_product (catalogue : dict) (product : value) : result dict :=
  title <- get product "title" ;;
  price <- get product "price" ;;
  if truthy title && negb (is_none price)
  then setitem catalogue title price
  else ret catalogue.

Definition create_price_catalogue (product_list : value) : result dict :=
  products <- iter product_list ;;
  for_in products add_product [].

(** *** [compute_total_sales] *)

(** The body of the loop, from the running total to the next one; the
    branches that end in [continue] return the total as it is. *)
Definition add_sale (price_catalogue : dict) (total_cost : float)
    (sale : value) : io event float :=
  product_name <- lift (get sale "Product") ;;
  quantity <- lift (get sale "Quantity") ;;
  if negb (truthy product_name) || is_none quantity then
    _ <- print (InvalidSale sale) ;;
    ret total_cost
  else
    converted <-
      try_except
        (q <- lift (to_float quantity) ;; ret (Some q))
        [ ([ValueError],
            fun _ =>
              _ <- print (InvalidQuantity product_name quantity) ;;
              ret None) ] ;;
    match converted with
    | None => ret total_cost
    | Some quantity =>
        known <- lift (contains price_catalogue product_name) ;;
        if (known : bool) then
          price <- lift (getitem price_catalogue product_name) ;;
          cost <- lift (mul_float price quantity) ;;
          ret (fadd total_cost cost)
        else
          _ <- print (UnknownProduct product_name) ;;
          ret total_cost
    end.

Definition compute_total_sales (price_catalogue : dict)
    (sales_record : value) : io event float :=
  sales <- lift (iter sales_record) ;;
  for_in sales (add_sale price_catalogue) fzero.

(** *** [main] *)

(** What opening a file for writing and writing to it comes to: the
    text is written; [open] fails, and the file is as it was; [open]
    succeeds, which empties or creates the file, and writing or closing
    fails. *)
Inductive write_outcome : Type :=
  | Written
  | OpenFails
  | WriteFails.

Record world : Type := {
  argv : list str;
  files : filesystem;
  (** the two readings of [time.time()] *)
  start_time : float;
  end_time : float;
  on_write : str -> write_outcome
}.

(** [sys.argv[i]] *)
Definition argument (w : world) (i : nat) : str :=
  nth i (argv w) [].

Definition sys_exit {A : Type} (code : Z) : io event A :=
  raise (SystemExit code).

Definition update (fs : filesystem) (filename : str) (f : file)
  : filesystem :=
  fun name => if str_eqb name filename then f else fs name.

(** The file system after [filename] was opened for writing and [text]
    written to it, whether that went well or not. *)
Definition after_write (w : world) (filename : str) (text : report)
  : filesystem :=
  match on_write w filename with
  | Written => update (files w) filename (ReportText text)
  | OpenFails => files w
  | WriteFails => update (files w) filename Truncated
  end.

(** [with open(filename, "w", encoding='utf-8') as f: f.write(text)];
    the value is the file system afterwards. *)
Definition open_and_write (w : world) (filename : str) (text : report)
  : io event filesystem :=
  _ <- emit (OpenWrite filename) ;;
  match on_write w filename with
  | Written => ret (after_write w filename text)
  | OpenFails | WriteFails => raise OSError
  end.

(** The run of the program in a world: what it does, in order, and the
    file system it leaves when it runs to its end. *)
Definition main (w : world) : io event filesystem :=
  if negb (List.length (argv w) =? 3)%nat then
    _ <- print Usage ;;
    sys_exit 1
  else
    let price_file := argument w 1 in
    let sales_file := argument w 2 in
    product_list <- load_json_file (files w) price_file ;;
    sales_record <- load_json_file (files w) sales_file ;;
    _ <- (if is_none product_list || is_none sales_record
          then sys_exit 1 else ret tt) ;;
    price_catalogue <- lift (create_price_catalogue product_list) ;;
    total_cost <- compute_total_sales price_catalogue sales_record ;;
    let elapsed_time := fsub (end_time w) (start_time w) in
    let results_str :=
      {| total_cost := total_cost; elapsed_time := elapsed_time |} in
    _ <- print (Results results_str) ;;
    try_except
      (open_and_write w "SalesResults.txt" results_str)
      [ ([OSError; OSError],
          fun e =>
            _ <- print (WriteError e) ;;
            ret (after_write w "SalesResults.txt" results_str)) ].

(** The exit status of the process: 0 when [main] returns, the code of
    [sys.exit], 1 when an exception reaches the top level. *)
Definition exit_code {A : Type} (r : io event A) : Z :=
  match snd r with
  | Ok _ => 0
  | Raise (SystemExit code) => code
  | Raise _ => 1
  end.

Definition trace {A : Type} (r : io event A) : list event := fst r.

(** The file system after the run: nothing is written unless the run
    reaches the end. *)
Definition files_after (w : world) : filesystem :=
  match snd (main w) with
  | Ok fs => fs
  | Raise _ => files w
  end.

End computeSales.

(** ** The words of the specification *)

Module Spec.
Import Py computeSales.

Definition is_ok {A : Type} (r : result A) : bool :=
  match r with Ok _ => true | Raise _ => false end.

Definition field (obj : value) (name : string) : value :=
  match get obj name with Ok v => v | Raise _ => VNone end.

Definition is_object (v : value) : bool :=
  match v with VDict _ => true | _ => false end.

Definition hashable (v : value) : bool := is_ok (key_of v).

(** A number that [float] accepts. *)
Definition is_number (v : value) : bool :=
  match v with
  | VBool _ | VFloat _ => true
  | VInt z => is_ok (float_of_int z)
  | _ => false
  end.


(** *** Product lists *)

(** An element that has a truthy title and a price that is not [None]. *)
Definition retained (product : value) : bool :=
  truthy (field product "title") && negb (is_none (field product "price")).

(** A JSON object whose title is not an array or an object. *)
Definition product_like (product : value) : bool :=
  is_object product && hashable (field product "title").

(** ... and whose price, when the element is retained, is a number. *)
Definition priced_product (product : value) : bool :=
  product_like product
  && (negb (retained product) || is_number (field product "price")).

(** Whether an element is retained under the key [k]. *)
Definition enters (k : key) (product : value) : bool :=
  retained product
  && match key_of (field product "title") with
     | Ok k' => key_eqb k k'
     | Raise _ => false
     end.

(** The price of the last element of [l] retained under [k]. *)
Fixpoint last_price (k : key) (l : list value) : option value :=
  match l with
  | [] => None
  | product :: l' =>
      match last_price k l' with
      | Some v => Some v
      | None =>
          if enters k product then Some (field product "price") else None
      end
  end.

(** *** Catalogues and sale records *)

Definition priced (catalogue : dict) : bool :=
  forallb (fun kv => is_number (snd kv)) catalogue.

Definition is_key_of (catalogue : dict) (v : value) : bool :=
  match contains catalogue v with Ok b => b | Raise _ => false end.

(** The records the total is taken over: Product truthy and a key of the
    catalogue, Quantity not [None] and coercible to a float. *)
Definition counts (catalogue : dict) (sale : value) : bool :=
  truthy (field sale "Product")
  && is_key_of catalogue (field sale "Product")
  && negb (is_none (field sale "Quantity"))
  && is_ok (to_float (field sale "Quantity")).

(** The catalogue price of the product times the coerced quantity; not
    a number where one of them is undefined. *)
Definition amount (catalogue : dict) (sale : value) : float :=
  match getitem catalogue (field sale "Product"),
        to_float (field sale "Quantity") with
  | Ok price, Ok quantity =>
      match mul_float price quantity with
      | Ok cost => cost
      | Raise _ => S754_nan
      end
  | _, _ => S754_nan
  end.

(** The sum, accumulated from 0.0 in the order of the records. *)
Definition sum_of_sales (catalogue : dict) (sales : list value) : float :=
  fold_left fadd (map (amount catalogue) (filter (counts catalogue) sales))
    fzero.

Definition quantity_like (q : value) : bool :=
  match q with
  | VNone | VBool _ | VFloat _ | VStr _ => true
  | VInt z => is_ok (float_of_int z)
  | VList _ | VDict _ => false
  end.

(** The decimal numeral with the digits [ds], the most significant
    first, and the integer it stands for. *)
Definition numeral (ds : list N) : str := map (fun d => (48 + d)%N) ds.

Definition numeral_value (ds : list N) : Z :=
  fold_left (fun acc d => 10 * acc + Z.of_N d) ds 0.

Definition is_digits (ds : list N) : bool :=
  match ds with
  | [] => false
  | _ :: _ => forallb (fun d => (d <? 10)%N) ds
  end.

(** The character of a digit. *)
Definition figure (d : N) : ascii := ascii_of_N (48 + d).

(** A JSON object whose Product is not an array or an object and whose
    Quantity is absent, [null], a boolean, a float, a string or an
    integer within the range of floats; neither, when it is a string,
    holds a surrogate code point. *)
Definition sale_like (sale : value) : bool :=
  is_object sale
  && hashable (field sale "Product")
  && quantity_like (field sale "Quantity")
  && interpolable (field sale "Product")
  && interpolable (field sale "Quantity").

(** A name that [open] takes: it can be encoded and has no NUL. *)
Definition openable (filename : str) : bool :=
  fs_encodable filename && negb (has_nul filename).

(** The diagnostics of the aggregation. *)
Definition advisory (e : event) : bool :=
  match e with
  | Print (InvalidSale _ | InvalidQuantity _ _ | UnknownProduct _) => true
  | _ => false
  end.

(** The events of loading, and the usage message: what a run shows
    before it builds the catalogue. *)
Definition before_processing (e : event) : bool :=
  match e with
  | OpenRead _ => true
  | Print (FileNotFound _ | InvalidJson _ | UnexpectedReadError _ _ | Usage)
      => true
  | _ => false
  end.

Definition is_file_io (e : event) : bool :=
  match e with
  | OpenRead _ | OpenWrite _ => true
  | Print _ => false
  end.

(** A file that loads, and to something else than [None]. *)
Definition loads (f : file) : bool :=
  match read_json f with
  | Ok v => negb (is_none v)
  | Raise _ => false
  end.

(** A file that the decoder reads to the end or refuses as not JSON:
    any but one that is not UTF-8 and the documents it gives up on. *)
Definition handled (f : file) : bool :=
  match f with
  | NotUtf8 | TooDeep | TooLong => false
  | _ => true
  end.

(** The exceptions that leave [load_json_file]. *)
Definition raised_by_loading (e : exn) : bool :=
  match e with
  | UnicodeDecodeError | UnicodeEncodeError | RecursionError | ValueError
      => true
  | _ => false
  end.

(** A failed load answered with a diagnostic: None is returned, unless
    the file name cannot be printed. *)
Definition answered (filename : str) (m : message) : io event value :=
  if encodable filename then ([OpenRead filename; Print m], Ok VNone)
  else ([OpenRead filename], Raise UnicodeEncodeError).


(** A record answered with a diagnostic: the total stays, unless the
    text cannot be printed. *)
Definition diagnosed (m : message) (total : float) : io event float :=
  if printable m then ([Print m], Ok total)
  else ([], Raise UnicodeEncodeError).

(** What one turn of the loop does with a JSON object, branch by branch. *)
Definition add_sale_cases (catalogue : dict) (total : float) (sale : value)
  : io event float :=
  let product_name := field sale "Product" in
  let quantity := field sale "Quantity" in
  if negb (truthy product_name) || is_none quantity
  then ([Print (InvalidSale sale)], Ok total)
  else
    match to_float quantity with
    | Raise e =>
        if isinstance e ValueError
        then diagnosed (InvalidQuantity product_name quantity) total
        else ([], Raise e)
    | Ok q =>
        match contains catalogue product_name with
        | Raise e => ([], Raise e)
        | Ok false => diagnosed (UnknownProduct product_name) total
        | Ok true =>
            match getitem catalogue product_name with
            | Raise e => ([], Raise e)
            | Ok price =>
                match mul_float price q with
                | Raise e => ([], Raise e)
                | Ok cost => ([], Ok (fadd total cost))
                end
            end
        end
    end.

(** What [main] does once both files are loaded. *)
Definition after_loading (w : world) (product_list sales_record : value)
  : io event filesystem :=
  _ <- (if is_none product_list || is_none sales_record
        then sys_exit 1 else ret tt) ;;
  price_catalogue <- lift (create_price_catalogue product_list) ;;
  total_cost <- compute_total_sales price_catalogue sales_record ;;
  let elapsed_time := fsub (end_time w) (start_time w) in
  let results_str :=
    {| total_cost := total_cost; elapsed_time := elapsed_time |} in
  _ <- print (Results results_str) ;;
  try_except
    (open_and_write w "SalesResults.txt" results_str)
    [ ([OSError; OSError],
        fun e =>
          _ <- print (WriteError e) ;;
          ret (after_write w "SalesResults.txt" results_str)) ].

End Spec.

(** ** Concrete catalogues, records and worlds *)

Module Examples.
Import Py computeSales Spec.

(** 2.5, 3.0 and 10.0 *)
Definition f2_5 : float := S754_finite false 5629499534213120 (-51).
Definition f3 : float := S754_finite false 6755399441055744 (-51).
Definition f10 : float := S754_finite false 5629499534213120 (-49).

Definition product (title price : value) : value :=
  VDict [(KStr "title", title); (KStr "price", price)].

Definition sale (product_name quantity : value) : value :=
  VDict [(KStr "Product", product_name); (KStr "Quantity", quantity)].

(** [{"title": "Apple", "price": 2.5}] and its catalogue *)
Definition apple_list : list value := [product (VStr "Apple") (VFloat f2_5)].
Definition apples : dict := [(KStr "Apple", VFloat f2_5)].

(** [{"title": "X", "price": 1}, {"title": "X", "price": 5}] *)
Definition twice_x : list value :=
  [product (VStr "X") (VInt 1); product (VStr "X") (VInt 5)].

(** A price of 0, an empty title, a null price and no title at all:
    [{"title": "Free", "price": 0}, {"title": empty, "price": 1},
     {"title": "Gone", "price": null}, {"price": 3}] *)
Definition mixed_list : list value :=
  [product (VStr "Free") (VInt 0); product (VStr EmptyString) (VInt 1);
   product (VStr "Gone") VNone; VDict [(KStr "price", VInt 3)]].

(** [{"title": ["X"], "price": 2}] *)
Definition list_title : list value :=
  [product (VList [VStr "X"]) (VInt 2)].

(** The catalogue of [{"title": "Apple", "price": "2.5"}]: the price is
    a string. *)
Definition text_price : dict := [(KStr "Apple", VStr "2.5")].


(** [{"Product": "Apple", "Quantity": 4}] *)
Definition four_apples : list value := [sale (VStr "Apple") (VInt 4)].

(** Records of every kind the aggregation tells apart. *)
Definition assorted : list value :=
  [sale (VStr "Apple") (VInt 4); sale (VStr "Apple") (VStr "abc");
   sale (VStr "Pear") (VInt 1); sale (VStr EmptyString) (VInt 2);
   sale (VStr "Apple") VNone; sale (VStr "Apple") (VStr "3")].

(** Records none of which counts. *)
Definition all_invalid : list value :=
  [sale (VStr "Apple") (VStr "abc"); sale (VStr "Pear") (VInt 1);
   sale (VStr EmptyString) (VInt 2)].

(** [{"Product": "Apple", "Quantity": [1]}] *)
Definition list_quantity : list value :=
  [sale (VStr "Apple") (VList [VInt 1])].

(** The digits of 10 ^ 400: a one and four hundred zeros. *)
Definition beyond_floats : list N := (1 :: repeat 0 400)%N.

(** The string that the JSON text ["\ud800"] decodes to: one code
    point, a surrogate without its pair. *)
Definition lone_surrogate : str := [55296%N].

Definition two_files (price sales : file) : filesystem :=
  fun name =>
    if str_eqb name "prices.json" then price
    else if str_eqb name "sales.json" then sales
    else Missing.

Definition run_with (args : list str) (price sales : file)
    (can_write : bool) : world :=
  {| argv := args;
     files := two_files price sales;
     start_time := fzero;
     end_time := fone;
     on_write := fun _ => if can_write then Written else OpenFails |}.

Definition two_args : list str :=
  [text "computeSales.py"; text "prices.json"; text "sales.json"].


(** No price file. *)
Definition missing_prices_run : world :=
  run_with two_args Missing (Json (VList four_apples)) true.


(** A price file whose bytes are not UTF-8, as the single byte 0xFF. *)
Definition not_utf8_prices_run : world :=
  run_with two_args NotUtf8 (Json (VList four_apples)) true.


End Examples.

(** ** Shapes and outcomes the further statements speak of *)

Module Behaviour.
Import Py computeSales Spec Examples.

(** The key of a falsy object: [None], [0], [0.0], [False], the empty
    string. *)
Definition falsy_key (k : key) : bool :=
  match k with
  | KNone => true
  | KInt z => z =? 0
  | KFloat f => is_zero f
  | KStr s => match s with [] => true | _ :: _ => false end
  end.

(** An element the builder gets past: a JSON object whose title, when
    the element is retained, can be a dictionary key. *)
Definition buildable (product : value) : bool :=
  is_object product
  && (negb (retained product) || hashable (field product "title")).

Definition is_array (v : value) : bool :=
  match v with VList _ => true | _ => false end.

(** What iterating over a document that is not an array comes to: an
    empty object or string has no element, any other has a first element
    without a [get] method, and the rest cannot be iterated over. *)
Definition not_array_outcome (v : value) : result unit :=
  match v with
  | VDict [] => Ok tt
  | VStr [] => Ok tt
  | VDict _ | VStr _ => Raise AttributeError
  | _ => Raise TypeError
  end.

(** The exceptions that data can make the builder and the aggregation
    raise. *)
Definition raised_by_data (e : exn) : bool :=
  match e with
  | AttributeError | TypeError | OverflowError => true
  | _ => false
  end.

(** A record whose diagnostics cannot all be printed: its Product or
    its Quantity is a string that holds a surrogate code point. *)
Definition unprintable (sale : value) : bool :=
  negb (interpolable (field sale "Product")
        && interpolable (field sale "Quantity")).

(** The exceptions that leave the aggregation: those that data raise,
    and the one of a diagnostic that cannot be printed. *)
Definition raised_by_aggregation (e : exn) : bool :=
  match e with
  | UnicodeEncodeError => true
  | _ => raised_by_data e
  end.

Definition is_report (e : event) : bool :=
  match e with Print (Results _) => true | _ => false end.

Definition report_of (w : world) (total : float) : report :=
  {| total_cost := total;
     elapsed_time := fsub (end_time w) (start_time w) |}.

(** How a run that reaches the report ends: the report on the console,
    then the attempt to write it. *)
Definition closing (w : world) (total : float) : list event :=
  [Print (Results (report_of w total)); OpenWrite "SalesResults.txt"]
  ++ match on_write w "SalesResults.txt" with
     | Written => []
     | OpenFails | WriteFails => [Print (WriteError OSError)]
     end.

Definition written (w : world) (total : float) : filesystem :=
  after_write w "SalesResults.txt" (report_of w total).

(** What every catalogue under construction keeps: one item per key, no
    key of a falsy title, no price that is None. *)
Definition sound_items (d : dict) : Prop :=
  NoDup (map fst d)
  /\ forall k v, In (k, v) d -> falsy_key k = false /\ is_none v = false.

(** A record that is skipped with [diagnostics]: put between [pre] and
    [post], it leaves the outcome of the call as it is without it, and
    when the records before it are got past, it adds its diagnostics,
    where it stands, to what the call prints without it. *)
Definition skipped_with (catalogue : dict) (diagnostics : list event)
    (sale : value) (pre post : list value) : Prop :=
  snd (compute_total_sales catalogue (VList (pre ++ sale :: post)))
  = snd (compute_total_sales catalogue (VList (pre ++ post)))
  /\ (is_ok (snd (compute_total_sales catalogue (VList pre))) = true ->
      exists later,
        fst (compute_total_sales catalogue (VList (pre ++ post)))
        = (fst (compute_total_sales catalogue (VList pre)) ++ later)%list
        /\ fst (compute_total_sales catalogue (VList (pre ++ sale :: post)))
           = (fst (compute_total_sales catalogue (VList pre))
              ++ diagnostics ++ later)%list).

(** What loading and the aggregation show. *)
Definition noted (e : event) : bool := before_processing e || advisory e.

(** [l] is the beginning of [l']. *)
Definition begins {A : Type} (l l' : list A) : Prop :=
  exists rest, l' = (l ++ rest)%list.


(** A run on the catalogue and the records of the examples. *)
Definition assorted_run : world :=
  run_with two_args (Json (VList apple_list)) (Json (VList assorted)) true.

(** The same run on a disk that is full: the result file is opened,
    and the write fails. *)
Definition full_disk_run : world :=
  {| argv := two_args;
     files := two_files (Json (VList apple_list)) (Json (VList assorted));
     start_time := fzero;
     end_time := fone;
     on_write := fun _ => WriteFails |}.

(** What is in the result file after a run that got to writing it. *)
Definition result_file (w : world) (total : float) : file :=
  match on_write w "SalesResults.txt" with
  | Written => ReportText (report_of w total)
  | OpenFails => files w "SalesResults.txt"
  | WriteFails => Truncated
  end.

(** [{"title": "Apple", "price": 2.5}, {"price": 1}, 7]: the last element
    is not an object. *)
Definition broken_list : list value :=
  apple_list ++ [VDict [(KStr "price", VInt 1)]; VInt 7].

End Behaviour.

(** ** Facts about the runtime fragment *)

Import Py computeSales Spec.

Arguments float_of_string : simpl never.
Arguments float_of_int : simpl never.
Arguments fadd : simpl never.
Arguments fmul : simpl never.
Arguments fsub : simpl never.

Section Keys.

Lemma same_float_eq (x y : float) : same_float x y = true <-> x = y.
Proof.
  destruct x as [a|a| |a m e], y as [b|b| |b n f]; simpl;
    try (split; [discriminate | congruence]);
    try (rewrite Bool.eqb_true_iff; split; congruence).
  - tauto.
  - rewrite !andb_true_iff, Bool.eqb_true_iff, Pos.eqb_eq, Z.eqb_eq.
    split; [intros [[-> ->] ->]; reflexivity | intros [= -> -> ->]; auto].
Qed.

Lemma str_eqb_eq (a b : str) : str_eqb a b = true <-> a = b.
Proof.
  revert b; induction a as [|x a IH]; intros [|y b]; simpl;
    try (split; [discriminate | congruence]).
  - tauto.
  - rewrite andb_true_iff, N.eqb_eq, IH; split.
    + intros [-> ->]; reflexivity.
    + intros [= -> ->]; auto.
Qed.

Lemma key_eqb_eq (a b : key) : key_eqb a b = true <-> a = b.
Proof.
  destruct a, b; simpl; try (split; [discriminate | congruence]).
  - tauto.
  - rewrite Z.eqb_eq; split; congruence.
  - rewrite same_float_eq; split; congruence.
  - rewrite str_eqb_eq; split; congruence.
Qed.

Lemma key_eqb_refl (k : key) : key_eqb k k = true.
Proof. apply key_eqb_eq; reflexivity. Qed.

Lemma key_eqb_neq (a b : key) : a <> b -> key_eqb a b = false.
Proof.
  intros Hab; destruct (key_eqb a b) eqn:E; [|reflexivity].
  apply key_eqb_eq in E; contradiction.
Qed.

Lemma lookup_store (k k' : key) (v : value) (d : dict) :
  lookup k (store k' v d) = if key_eqb k k' then Some v else lookup k d.
Proof.
  induction d as [|[k0 v0] d IH]; simpl.
  - reflexivity.
  - destruct (key_eqb k' k0) eqn:E0; simpl.
    + apply key_eqb_eq in E0; subst k0.
      destruct (key_eqb k k'); reflexivity.
    + destruct (key_eqb k k0) eqn:E1.
      * apply key_eqb_eq in E1; subst k0.
        destruct (key_eqb k k') eqn:E2; [|reflexivity].
        apply key_eqb_eq in E2; subst k'.
        rewrite key_eqb_refl in E0; discriminate.
      * exact IH.
Qed.

Lemma lookup_priced (k : key) (d : dict) (v : value) :
  priced d = true -> lookup k d = Some v -> is_number v = true.
Proof.
  unfold priced; induction d as [|[k0 v0] d IH]; simpl; [discriminate|].
  rewrite andb_true_iff; intros [Hv Hd].
  destruct (key_eqb k k0); [intros [= <-]; exact Hv | auto].
Qed.

Lemma store_priced (k : key) (v : value) (d : dict) :
  priced d = true -> is_number v = true -> priced (store k v d) = true.
Proof.
  unfold priced; intros Hd Hv; induction d as [|[k0 v0] d IH]; simpl in *.
  - rewrite Hv; reflexivity.
  - apply andb_true_iff in Hd as [H0 Hd].
    destruct (key_eqb k k0); simpl; rewrite ?Hv, ?H0, ?Hd; auto.
Qed.

End Keys.

(** ** Facts about [create_price_catalogue] *)

Section Catalogue.

Lemma add_product_object (catalogue : dict) (d : dict) :
  add_product catalogue (VDict d) =
  if retained (VDict d)
  then setitem catalogue (field (VDict d) "title") (field (VDict d) "price")
  else Ok catalogue.
Proof. reflexivity. Qed.

Lemma add_product_lookup (catalogue catalogue' : dict) (product : value)
    (k : key) :
  add_product catalogue product = Ok catalogue' ->
  lookup k catalogue' =
  if enters k product then Some (field product "price")
  else lookup k catalogue.
Proof.
  destruct product as [| | | | | |d]; try discriminate.
  rewrite add_product_object; unfold enters.
  destruct (retained (VDict d)); simpl andb.
  - unfold setitem.
    destruct (key_of (field (VDict d) "title")) as [k'|e]; [|discriminate].
    intros [= <-]; apply lookup_store.
  - intros [= <-]; reflexivity.
Qed.

Lemma add_product_skips (catalogue : dict) (product : value) :
  is_object product = true -> retained product = false ->
  add_product catalogue product = Ok catalogue.
Proof.
  destruct product; try discriminate; intros _ H.
  rewrite add_product_object, H; reflexivity.
Qed.

Lemma add_product_total (catalogue : dict) (product : value) :
  product_like product = true ->
  exists catalogue', add_product catalogue product = Ok catalogue'.
Proof.
  unfold product_like, hashable; destruct product; try discriminate.
  rewrite add_product_object; simpl andb; intros H.
  destruct (retained (VDict d)); [|eauto].
  unfold setitem; destruct (key_of (field (VDict d) "title"));
    [eauto | discriminate].
Qed.

Lemma for_in_cons {S X : Type} (x : X) (l : list X)
    (body : S -> X -> result S) (s : S) :
  for_in (x :: l) body s =
  match body s x with Ok s' => for_in l body s' | Raise e => Raise e end.
Proof. reflexivity. Qed.

Lemma build_lookup (l : list value) (acc catalogue : dict) (k : key) :
  for_in l add_product acc = Ok catalogue ->
  lookup k catalogue =
  match last_price k l with Some v => Some v | None => lookup k acc end.
Proof.
  revert acc; induction l as [|p l IH]; intros acc.
  - intros [= <-]; reflexivity.
  - rewrite for_in_cons.
    destruct (add_product acc p) as [acc'|e] eqn:Hp; [|discriminate].
    intros H; rewrite (IH _ H); simpl.
    destruct (last_price k l); [reflexivity|].
    rewrite (add_product_lookup _ _ _ k Hp).
    destruct (enters k p); reflexivity.
Qed.

Lemma build_total (l : list value) (acc : dict) :
  forallb product_like l = true ->
  exists catalogue, for_in l add_product acc = Ok catalogue.
Proof.
  revert acc; induction l as [|p l IH]; intros acc; simpl forallb.
  - exists acc; reflexivity.
  - rewrite andb_true_iff; intros [Hp Hl].
    destruct (add_product_total acc p Hp) as [acc' Hacc].
    rewrite for_in_cons, Hacc; auto.
Qed.

Lemma last_price_some (k : key) (l : list value) :
  last_price k l <> None ->
  exists product, In product l /\ enters k product = true.
Proof.
  induction l as [|p l IH]; simpl; [congruence|].
  destruct (last_price k l) as [v'|].
  - intros _; destruct IH as [q [Hq He]]; [discriminate | eauto].
  - destruct (enters k p) eqn:E; [eauto | congruence].
Qed.

Lemma last_price_in (k : key) (l : list value) (product : value) :
  In product l -> enters k product = true -> last_price k l <> None.
Proof.
  induction l as [|p l IH]; simpl; [tauto|].
  intros [->|Hin] He.
  - destruct (last_price k l); [discriminate | rewrite He; discriminate].
  - specialize (IH Hin He).
    destruct (last_price k l); [discriminate | contradiction].
Qed.

Lemma last_price_app (k : key) (pre post : list value) (product : value) :
  enters k product = true ->
  forallb (fun later => negb (enters k later)) post = true ->
  last_price k (pre ++ product :: post) = Some (field product "price").
Proof.
  intros He Hpost.
  assert (Hnone : last_price k post = None).
  { induction post as [|q post IH]; [reflexivity|].
    simpl in Hpost |- *; apply andb_true_iff in Hpost as [Hq Hpost].
    rewrite (IH Hpost); destruct (enters k q); [discriminate | reflexivity]. }
  induction pre as [|q pre IH]; simpl.
  - rewrite Hnone, He; reflexivity.
  - rewrite IH; reflexivity.
Qed.

Lemma enters_key (k : key) (product : value) :
  enters k product = true <->
  retained product = true /\ key_of (field product "title") = Ok k.
Proof.
  unfold enters; rewrite andb_true_iff.
  destruct (key_of (field product "title")) as [k'|e].
  - rewrite key_eqb_eq; split; intros [H1 H2]; split; congruence.
  - split; intros [H1 H2]; discriminate.
Qed.

Lemma build_priced (l : list value) (acc catalogue : dict) :
  forallb priced_product l = true -> priced acc = true ->
  for_in l add_product acc = Ok catalogue -> priced catalogue = true.
Proof.
  revert acc; induction l as [|p l IH]; intros acc; simpl forallb.
  - intros _ Hacc [= <-]; exact Hacc.
  - rewrite andb_true_iff; intros [Hp Hl] Hacc.
    rewrite for_in_cons.
    destruct (add_product acc p) as [acc'|e] eqn:Hadd; [|discriminate].
    apply IH; [exact Hl|].
    unfold priced_product in Hp; apply andb_true_iff in Hp as [Hlike Hnum].
    destruct p; try discriminate.
    rewrite add_product_object in Hadd.
    destruct (retained (VDict d)); simpl in Hnum.
    + unfold setitem in Hadd.
      destruct (key_of (field (VDict d) "title")); [|discriminate].
      injection Hadd as <-; apply store_priced; assumption.
    + injection Hadd as <-; exact Hacc.
Qed.

End Catalogue.

(** ** Facts about [compute_total_sales] *)

Section Aggregation.

Lemma float_of_string_raises (s : str) (e : exn) :
  float_of_string s = Raise e -> e = ValueError.
Proof.
  unfold float_of_string.
  destruct (drop_underscores None (to_ascii s)); [|congruence].
  destruct (read_sign (strip l)) as [neg body].
  destruct (parse_decimal neg body); [discriminate|].
  destruct (parse_inf_or_nan neg body); [discriminate | congruence].
Qed.

Lemma digit_cases (d : N) :
  (d <? 10)%N = true -> In d [0; 1; 2; 3; 4; 5; 6; 7; 8; 9]%N.
Proof.
  rewrite N.ltb_lt; intros H; simpl.
  destruct d as [|p]; [auto|].
  do 4 (destruct p as [p|p|]; try lia; auto 11).
Qed.

Ltac each_digit d H :=
  apply digit_cases in H; simpl in H;
  repeat (destruct H as [<- | H]; [reflexivity|]); destruct H.

Lemma figure_digit (d : N) :
  (d <? 10)%N = true -> digit_of (figure d) = Some (Z.of_N d).
Proof. intros H; each_digit d H. Qed.

Lemma figure_plain (d : N) :
  (d <? 10)%N = true ->
  is_space (figure d) = false
  /\ Ascii.eqb (figure d) "_" = false
  /\ forall l, read_sign (figure d :: l) = (false, figure d :: l).
Proof.
  intros H; apply digit_cases in H; simpl in H.
  repeat (destruct H as [<- | H]; [repeat split|]); destruct H.
Qed.

Lemma to_ascii_figure (d : N) (s : str) :
  (d <? 10)%N = true -> to_ascii ((48 + d)%N :: s) = figure d :: to_ascii s.
Proof. intros H; each_digit d H. Qed.

Lemma to_ascii_numeral (ds : list N) :
  forallb (fun d => (d <? 10)%N) ds = true ->
  to_ascii (numeral ds) = map figure ds.
Proof.
  induction ds as [|d ds IH]; [reflexivity|].
  simpl forallb; rewrite andb_true_iff; intros [Hd Hds].
  change (numeral (d :: ds)) with ((48 + d)%N :: numeral ds).
  rewrite (to_ascii_figure d _ Hd), (IH Hds); reflexivity.
Qed.

Lemma drop_underscores_figures (ds : list N) (prev : option ascii) :
  forallb (fun d => (d <? 10)%N) ds = true ->
  match prev with Some p => Ascii.eqb p "_" = false | None => True end ->
  drop_underscores prev (map figure ds) = Some (map figure ds).
Proof.
  revert prev; induction ds as [|d ds IH]; intros prev; simpl.
  - intros _ Hp; destruct prev as [p|]; [|reflexivity].
    destruct p as [[] [] [] [] [] [] [] []]; try reflexivity; discriminate.
  - rewrite andb_true_iff; intros [Hd Hds] Hp.
    destruct (figure_plain d Hd) as [_ [Hu _]]; rewrite Hu.
    replace (match prev with
             | Some "_"%char => negb (is_digit (figure d))
             | _ => false
             end) with false.
    + rewrite (IH (Some (figure d)) Hds Hu); reflexivity.
    + destruct prev as [p|]; [|reflexivity].
      destruct p as [[] [] [] [] [] [] [] []]; try reflexivity; discriminate.
Qed.

Lemma lstrip_figures (ds : list N) :
  forallb (fun d => (d <? 10)%N) ds = true ->
  lstrip (map figure ds) = map figure ds.
Proof.
  destruct ds as [|d ds]; simpl; [reflexivity|].
  rewrite andb_true_iff; intros [Hd _].
  destruct (figure_plain d Hd) as [Hs _]; rewrite Hs; reflexivity.
Qed.

Lemma strip_figures (ds : list N) :
  forallb (fun d => (d <? 10)%N) ds = true ->
  strip (map figure ds) = map figure ds.
Proof.
  intros H; unfold strip.
  rewrite (lstrip_figures ds H), <- map_rev, lstrip_figures, map_rev.
  - apply rev_involutive.
  - rewrite forallb_forall in *; intros d Hd; apply H, in_rev; exact Hd.
Qed.

Lemma read_digits_figures (ds : list N) (acc n : Z) :
  forallb (fun d => (d <? 10)%N) ds = true ->
  read_digits acc n (map figure ds)
  = (fold_left (fun acc d => 10 * acc + Z.of_N d) ds acc,
     n + Z.of_nat (List.length ds), []).
Proof.
  revert acc n; induction ds as [|d ds IH]; intros acc n.
  - intros _; simpl; rewrite Z.add_0_r; reflexivity.
  - simpl forallb; rewrite andb_true_iff; intros [Hd Hds].
    simpl map; simpl read_digits; rewrite (figure_digit d Hd), (IH _ _ Hds).
    simpl fold_left; f_equal; f_equal.
    cbn [List.length]; lia.
Qed.

Lemma numeral_value_nonneg (ds : list N) (acc : Z) :
  0 <= acc -> 0 <= fold_left (fun acc d => 10 * acc + Z.of_N d) ds acc.
Proof.
  revert acc; induction ds as [|d ds IH]; intros acc H; [exact H|].
  cbn [fold_left]; apply IH; lia.
Qed.

Lemma float_of_numeral (ds : list N) (q : float) :
  is_digits ds = true ->
  float_of_int (numeral_value ds) = Ok q ->
  float_of_string (numeral ds) = Ok q.
Proof.
  intros Hds Hq.
  assert (Hall : forallb (fun d => (d <? 10)%N) ds = true)
    by (destruct ds; [discriminate | exact Hds]).
  unfold float_of_string.
  rewrite (to_ascii_numeral ds Hall), (drop_underscores_figures ds None Hall I).
  rewrite (strip_figures ds Hall).
  destruct ds as [|d ds]; [discriminate|].
  simpl in Hall; apply andb_true_iff in Hall as [Hd Hall'].
  destruct (figure_plain d Hd) as [_ [_ Hsign]].
  simpl map; rewrite Hsign.
  unfold parse_decimal.
  change (figure d :: map figure ds) with (map figure (d :: ds)).
  rewrite read_digits_figures
    by (simpl; rewrite Hd, Hall'; reflexivity).
  fold (numeral_value (d :: ds)).
  replace (0 + Z.of_nat (List.length (d :: ds)) + 0 =? 0) with false
    by (symmetry; apply Z.eqb_neq; rewrite length_cons; lia).
  simpl read_exponent; cbv iota beta.
  pose proof (numeral_value_nonneg (d :: ds) 0 (Z.le_refl 0)) as Hpos.
  fold (numeral_value (d :: ds)) in Hpos.
  unfold float_of_int in Hq.
  destruct (numeral_value (d :: ds)) as [|p|p]; [| |lia].
  - vm_compute in Hq; injection Hq as <-; reflexivity.
  - unfold float_of_decimal.
    change (0 <=? 0 - 0) with true; cbv iota.
    replace (Z.pos p * 10 ^ (0 - 0)) with (Z.pos p) by (simpl; lia).
    destruct (binary_normalize prec emax (Z.pos p) 0 false);
      congruence.
Qed.

Lemma add_sale_object (catalogue : dict) (total : float) (d : dict) :
  add_sale catalogue total (VDict d) =
  add_sale_cases catalogue total (VDict d).
Proof.
  unfold add_sale, add_sale_cases, diagnosed, print; simpl.
  destruct (negb _ || is_none _); [reflexivity|].
  destruct (to_float _) as [q|e]; simpl.
  - destruct (contains _ _) as [[|]|e]; simpl; try reflexivity.
    + destruct (getitem _ _) as [price|e]; simpl; try reflexivity.
      destruct (mul_float price q); reflexivity.
    + destruct (interpolable _); reflexivity.
  - destruct e; try reflexivity;
      destruct (interpolable _ && interpolable _); reflexivity.
Qed.

Lemma mul_float_number (price : value) (q : float) :
  is_number price = true -> exists cost, mul_float price q = Ok cost.
Proof.
  destruct price; try discriminate; unfold mul_float, to_float; simpl.
  - eauto.
  - destruct (float_of_int z); [eauto | discriminate].
  - eauto.
Qed.

Lemma to_float_quantity (q : value) (e : exn) :
  quantity_like q = true -> to_float q = Raise e ->
  is_none q = true \/ e = ValueError.
Proof.
  destruct q; simpl; try discriminate; auto.
  - intros H1 H2; rewrite H2 in H1; discriminate.
  - intros _ H; right; eapply float_of_string_raises; eauto.
Qed.

Lemma sale_like_object (sale : value) :
  sale_like sale = true ->
  exists d k,
    sale = VDict d
    /\ key_of (field sale "Product") = Ok k
    /\ quantity_like (field sale "Quantity") = true
    /\ interpolable (field sale "Product") = true
    /\ interpolable (field sale "Quantity") = true.
Proof.
  unfold sale_like, hashable; rewrite !andb_true_iff.
  intros [[[[Hobj Hp] Hq] Hip] Hiq].
  destruct sale as [| | | | | |d]; try discriminate.
  destruct (key_of (field (VDict d) "Product")) as [k|] eqn:Hk;
    [|discriminate].
  exists d, k; auto.
Qed.

Lemma add_sale_sound (catalogue : dict) (total : float) (sale : value) :
  priced catalogue = true -> sale_like sale = true ->
  exists out,
    add_sale catalogue total sale =
      (out, Ok (if counts catalogue sale
                then fadd total (amount catalogue sale) else total))
    /\ forallb advisory out = true.
Proof.
  intros Hcat Hsale.
  destruct (sale_like_object sale Hsale) as [d [k [-> [Hk [Hq [Hip Hiq]]]]]].
  rewrite add_sale_object.
  unfold add_sale_cases, counts, amount, is_key_of, contains, getitem,
    diagnosed, printable.
  rewrite Hk, Hip, Hiq.
  destruct (truthy (field (VDict d) "Product")); simpl;
    [|eexists; split; reflexivity].
  destruct (is_none (field (VDict d) "Quantity")) eqn:Hnone; simpl.
  { rewrite andb_false_r; simpl. eexists; split; reflexivity. }
  destruct (to_float (field (VDict d) "Quantity")) as [q|e] eqn:Hfloat.
  - destruct (lookup k catalogue) as [price|] eqn:Hlook; simpl.
    + destruct (mul_float_number price q (lookup_priced _ _ _ Hcat Hlook))
        as [cost ->].
      eexists; split; reflexivity.
    + eexists; split; reflexivity.
  - destruct (to_float_quantity _ _ Hq Hfloat) as [H| ->]; [congruence|].
    rewrite andb_false_r; simpl. eexists; split; reflexivity.
Qed.

Lemma to_float_not_none (v : value) (q : float) :
  to_float v = Ok q -> is_none v = false.
Proof. destruct v; simpl; congruence. Qed.

Lemma mul_float_to_float (price : value) (p q : float) :
  is_number price = true -> to_float price = Ok p ->
  mul_float price q = Ok (fmul p q).
Proof.
  intros Hn Hp; destruct price; try discriminate;
    unfold mul_float; rewrite Hp; reflexivity.
Qed.

Lemma getitem_contains (catalogue : dict) (k v : value) :
  getitem catalogue k = Ok v -> contains catalogue k = Ok true.
Proof.
  unfold getitem, contains.
  destruct (key_of k); [|discriminate].
  destruct (lookup _ catalogue); [reflexivity | discriminate].
Qed.

(** A record that counts: the turn of the loop prints nothing and adds
    price times quantity. *)
Lemma add_sale_counting (catalogue : dict) (total : float)
    (sale price : value) (p q : float) :
  is_object sale = true ->
  truthy (field sale "Product") = true ->
  getitem catalogue (field sale "Product") = Ok price ->
  is_number price = true ->
  to_float price = Ok p ->
  to_float (field sale "Quantity") = Ok q ->
  add_sale catalogue total sale = ([], Ok (fadd total (fmul p q))).
Proof.
  intros Ho Ht Hg Hn Hp Hq.
  destruct sale; try discriminate.
  rewrite add_sale_object; unfold add_sale_cases.
  rewrite Ht, Hq, (to_float_not_none _ _ Hq), (getitem_contains _ _ _ Hg), Hg.
  rewrite (mul_float_to_float price p q Hn Hp); reflexivity.
Qed.

Lemma for_in_io_cons {S X : Type} (x : X) (l : list X)
    (body : S -> X -> io event S) (s : S) :
  for_in (x :: l) body s =
  match body s x with
  | (out, Ok s') => let (out', r) := for_in l body s' in ((out ++ out')%list, r)
  | (out, Raise e) => (out, Raise e)
  end.
Proof. reflexivity. Qed.

Lemma aggregate_sound (catalogue : dict) (sales : list value) (total : float) :
  priced catalogue = true -> forallb sale_like sales = true ->
  exists out,
    for_in sales (add_sale catalogue) total =
      (out, Ok (fold_left fadd
                  (map (amount catalogue) (filter (counts catalogue) sales))
                  total))
    /\ forallb advisory out = true.
Proof.
  intros Hcat; revert total.
  induction sales as [|sale sales IH]; intros total; simpl forallb.
  - intros _; exists []; split; reflexivity.
  - rewrite andb_true_iff; intros [Hsale Hsales].
    destruct (add_sale_sound catalogue total sale Hcat Hsale)
      as [out [Hstep Hout]].
    rewrite for_in_io_cons, Hstep.
    destruct (IH (if counts catalogue sale
                  then fadd total (amount catalogue sale) else total) Hsales)
      as [out' [Hrest Hout']].
    rewrite Hrest; exists (out ++ out')%list; split.
    + simpl filter; destruct (counts catalogue sale); reflexivity.
    + rewrite forallb_app, Hout, Hout'; reflexivity.
Qed.

Lemma compute_total_sales_list (catalogue : dict) (sales : list value) :
  compute_total_sales catalogue (VList sales) =
  for_in sales (add_sale catalogue) fzero.
Proof.
  unfold compute_total_sales; simpl.
  destruct (for_in sales (add_sale catalogue) fzero); reflexivity.
Qed.


End Aggregation.


(** ** The aggregation: claims C1, C2, C5 and C9 *)

Section AggregationClaims.
Import Examples.

(** C1, as amended.  For every catalogue whose prices are numbers that
    [float] accepts and every list of sale records that are JSON objects
    whose Product is not an array or an object and whose Quantity is
    absent, null, a boolean, a float, a string or an integer within the
    range of floats, neither of the two being a string that holds a
    surrogate code point, [compute_total_sales] returns exactly the sum,
    taken from 0.0 in the order of the records, of catalogue price times
    coerced quantity over the records whose Product is truthy and a key
    of the catalogue and whose Quantity is not None and coercible to a
    float; the other records add nothing. *)
Theorem compute_total_sales_sum (catalogue : dict) (sales : list value) :
  priced catalogue = true ->
  forallb sale_like sales = true ->
  snd (compute_total_sales catalogue (VList sales))
  = Ok (sum_of_sales catalogue sales).
Proof.
  intros Hcat Hsales.
  rewrite compute_total_sales_list.
  destruct (aggregate_sound catalogue sales fzero Hcat Hsales) as [out [H _]].
  rewrite H; reflexivity.
Qed.

Lemma compute_total_sales_sum_witness :
  priced apples = true /\ forallb sale_like assorted = true
  /\ snd (compute_total_sales apples (VList assorted))
     = Ok (sum_of_sales apples assorted).
Proof.
  split; [reflexivity|]; split; [reflexivity|].
  apply (compute_total_sales_sum apples assorted); reflexivity.
Defined.

(** C1 as stated fails: under a catalogue whose price is a string, a
    record with a truthy catalogued Product and the Quantity 4 counts,
    and the call raises [TypeError] at the product instead of returning a
    sum. *)
Lemma compute_total_sales_sum_text_price :
  filter (counts text_price) four_apples = four_apples
  /\ snd (compute_total_sales text_price (VList four_apples))
     <> Ok (sum_of_sales text_price four_apples).
Proof.
  split; [reflexivity|].
  vm_compute; discriminate.
Qed.

(** Where the aggregation does complete: for every catalogue whose
    prices are numbers that [float] accepts and every list of sale records
    that are JSON objects whose Product is not an array or an object and
    whose Quantity is absent, null, a boolean, a float, a string or an
    integer within the range of floats, neither being a string that holds
    a surrogate code point, the call returns a total, which is 0.0 when
    no record counts, and all it prints are its three diagnostics. *)
Lemma compute_total_sales_completes (catalogue : dict) (sales : list value) :
  priced catalogue = true ->
  forallb sale_like sales = true ->
  exists out total,
    compute_total_sales catalogue (VList sales) = (out, Ok total)
    /\ forallb advisory out = true
    /\ (filter (counts catalogue) sales = [] -> total = fzero).
Proof.
  intros Hcat Hsales.
  rewrite compute_total_sales_list.
  destruct (aggregate_sound catalogue sales fzero Hcat Hsales)
    as [out [H Hout]].
  exists out; eexists; split; [exact H|]; split; [exact Hout|].
  intros ->; reflexivity.
Qed.

(** C5: the code departs from the claim.  On the sale record
    [{"Product": "Apple", "Quantity": [1]}] the conversion [float([1])]
    raises [TypeError]; the handler is for [ValueError] only, so the
    exception leaves [compute_total_sales]: the record is not skipped,
    nothing is printed and no total is returned. *)
Theorem compute_total_sales_list_quantity :
  compute_total_sales apples (VList list_quantity) = ([], Raise TypeError).
Proof. reflexivity. Qed.

Lemma for_in_change_one {S X : Type} (body : S -> X -> io event S)
    (x y : X) (pre post : list X) (s : S) :
  (forall s', body s' x = body s' y) ->
  for_in (pre ++ x :: post) body s = for_in (pre ++ y :: post) body s.
Proof.
  intros Hxy; revert s; induction pre as [|z pre IH]; intros s.
  - simpl app; rewrite !for_in_io_cons, Hxy; reflexivity.
  - simpl app; rewrite !for_in_io_cons.
    destruct (body s z) as [out [s'|e]]; [rewrite IH|]; reflexivity.
Qed.

Lemma add_sale_same_float (catalogue : dict) (total : float)
    (sale sale' : value) (q : float) :
  is_object sale = true -> is_object sale' = true ->
  field sale "Product" = field sale' "Product" ->
  to_float (field sale "Quantity") = Ok q ->
  to_float (field sale' "Quantity") = Ok q ->
  truthy (field sale "Product") = true ->
  add_sale catalogue total sale = add_sale catalogue total sale'.
Proof.
  intros Ho Ho' Hp Hq Hq' Ht.
  destruct sale; try discriminate; destruct sale'; try discriminate.
  rewrite !add_sale_object; unfold add_sale_cases.
  rewrite <- Hp, Ht, Hq, Hq'.
  rewrite (to_float_not_none _ _ Hq), (to_float_not_none _ _ Hq').
  reflexivity.
Qed.

(** C2, as amended.  For every catalogue and every pair of sale
    records with the same Product, a truthy key of the catalogue,
    [compute_total_sales] adds the same when the Quantity of the one is
    the string "3" and that of the other the number 3, and in general
    when the one is the decimal numeral of a non-negative integer within
    the range of floats and the other that integer, or the one any
    string that [float] turns into the float that the numeric Quantity
    of the other stands for: [float] gives both quantities one float,
    the turn of the loop does the same with both from every running
    total, and so does the whole call on two lists that differ in that
    record only; under a numeric price, what both add is the price times
    that float, and nothing is printed. *)
Theorem numeric_string_quantity
    (catalogue : dict) (with_string with_number : value) :
  is_object with_string = true ->
  is_object with_number = true ->
  field with_string "Product" = field with_number "Product" ->
  truthy (field with_string "Product") = true ->
  is_key_of catalogue (field with_string "Product") = true ->
  (field with_string "Quantity" = VStr "3"
   /\ field with_number "Quantity" = VInt 3)
  \/ (exists ds,
        is_digits ds = true
        /\ is_number (VInt (numeral_value ds)) = true
        /\ field with_string "Quantity" = VStr (numeral ds)
        /\ field with_number "Quantity" = VInt (numeral_value ds))
  \/ (exists s q,
        field with_string "Quantity" = VStr s
        /\ to_float (VStr s) = Ok q
        /\ to_float (field with_number "Quantity") = Ok q) ->
  exists q,
    to_float (field with_string "Quantity") = Ok q
    /\ to_float (field with_number "Quantity") = Ok q
    /\ (forall total,
          add_sale catalogue total with_string
          = add_sale catalogue total with_number)
    /\ (forall pre post,
          compute_total_sales catalogue (VList (pre ++ with_string :: post))
          = compute_total_sales catalogue
              (VList (pre ++ with_number :: post)))
    /\ (forall total price p,
          getitem catalogue (field with_string "Product") = Ok price ->
          is_number price = true ->
          to_float price = Ok p ->
          add_sale catalogue total with_string
          = ([], Ok (fadd total (fmul p q)))).
Proof.
  intros Ho Ho' Hp Ht _ Hq.
  assert (Hsame : exists q,
    to_float (field with_string "Quantity") = Ok q
    /\ to_float (field with_number "Quantity") = Ok q).
  { destruct Hq as [[Hs Hn] | [[ds [Hds [Hin [Hs Hn]]]]
                              | [s [q [Hs [Hfs Hfn]]]]]].
    - exists f3; rewrite Hs, Hn; split; reflexivity.
    - simpl in Hin.
      destruct (float_of_int (numeral_value ds)) as [q|] eqn:Hf;
        [|discriminate].
      exists q; rewrite Hs, Hn; split; [|exact Hf].
      apply float_of_numeral; assumption.
    - exists q; rewrite Hs; auto. }
  destruct Hsame as [q [Hfs Hfn]]; exists q.
  assert (Hstep : forall total,
    add_sale catalogue total with_string
    = add_sale catalogue total with_number)
    by (intros total; apply add_sale_same_float with (q := q); auto).
  split; [exact Hfs|]; split; [exact Hfn|]; split; [exact Hstep|]; split.
  - intros pre post; rewrite !compute_total_sales_list.
    apply for_in_change_one; exact Hstep.
  - intros total price p Hg Hn Hprice.
    apply add_sale_counting with (price := price); assumption.
Qed.

Lemma numeric_string_quantity_witness :
  truthy (VStr "Apple") = true
  /\ is_key_of apples (VStr "Apple") = true
  /\ compute_total_sales apples
       (VList ([sale (VStr "Pear") (VInt 1)]
               ++ sale (VStr "Apple") (VStr "3") :: four_apples))
     = compute_total_sales apples
         (VList ([sale (VStr "Pear") (VInt 1)]
                 ++ sale (VStr "Apple") (VInt 3) :: four_apples))
  /\ add_sale apples f10 (sale (VStr "Apple") (VStr "3"))
     = ([], Ok (fadd f10 (fmul f2_5 f3))).
Proof.
  split; [reflexivity|]; split; [reflexivity|].
  destruct (numeric_string_quantity apples
              (sale (VStr "Apple") (VStr "3")) (sale (VStr "Apple") (VInt 3))
              eq_refl eq_refl eq_refl eq_refl eq_refl
              (or_introl (conj eq_refl eq_refl)))
    as [q [Hq [_ [_ [Hcall Hadd]]]]].
  split; [apply Hcall|].
  assert (E : Ok f3 = Ok q) by exact Hq.
  injection E as <-.
  apply (Hadd f10 (VFloat f2_5) f2_5); reflexivity.
Defined.

(** C2 as stated fails: the numeral of 10 ^ 400, a one and four hundred
    zeros, is a numeric string and 10 ^ 400 the corresponding number;
    under a catalogue that has the product, the record with the string
    adds an infinite cost, for [float] turns the string into inf, while
    the record with the number adds nothing and ends the call, for
    [float] raises [OverflowError] on the integer. *)
Lemma numeric_string_quantity_beyond_floats :
  is_digits beyond_floats = true
  /\ numeral_value beyond_floats = 10 ^ 400
  /\ truthy (VStr "Apple") = true
  /\ is_key_of apples (VStr "Apple") = true
  /\ add_sale apples fzero (sale (VStr "Apple") (VStr (numeral beyond_floats)))
     = ([], Ok (S754_infinity false))
  /\ add_sale apples fzero
       (sale (VStr "Apple") (VInt (numeral_value beyond_floats)))
     = ([], Raise OverflowError).
Proof. repeat split; vm_compute; reflexivity. Qed.







End AggregationClaims.


(** ** The catalogue: claims C3 and C4 *)

Section CatalogueClaims.
Import Examples.

Lemma create_price_catalogue_list (product_list : list value) :
  create_price_catalogue (VList product_list)
  = for_in product_list add_product [].
Proof. reflexivity. Qed.

(** C3, as amended.  For every product list whose elements are JSON
    objects with a title that is not an array or an object,
    [create_price_catalogue] raises no error and builds a catalogue that
    has an entry exactly for the elements with a truthy title and a price
    that is not None: an element whose price is 0 is retained, and an
    element with a None or absent price or with a falsy or missing title
    leaves the catalogue as it is. *)
Theorem create_price_catalogue_entries (product_list : list value) :
  forallb product_like product_list = true ->
  exists catalogue,
    create_price_catalogue (VList product_list) = Ok catalogue
    /\ (forall k,
          lookup k catalogue <> None <->
          exists product,
            In product product_list /\ retained product = true
            /\ key_of (field product "title") = Ok k)
    /\ (forall product,
          In product product_list ->
          truthy (field product "title") = true ->
          field product "price" = VInt 0
          \/ field product "price" = VFloat fzero ->
          is_key_of catalogue (field product "title") = true)
    /\ (forall product acc,
          is_object product = true -> retained product = false ->
          add_product acc product = Ok acc).
Proof.
  intros Hlike.
  destruct (build_total product_list [] Hlike) as [catalogue Hbuild].
  exists catalogue; rewrite create_price_catalogue_list.
  assert (Hiff : forall k,
    lookup k catalogue <> None <->
    exists product,
      In product product_list /\ retained product = true
      /\ key_of (field product "title") = Ok k).
  { intros k; rewrite (build_lookup _ _ _ k Hbuild); split.
    - intros H.
      destruct (last_price_some k product_list) as [p [Hin He]].
      + destruct (last_price k product_list); [discriminate | exact H].
      + apply enters_key in He; eauto.
    - intros [p [Hin [Hr Hk]]].
      pose proof (last_price_in k product_list p Hin
                    (proj2 (enters_key k p) (conj Hr Hk))) as Hlast.
      destruct (last_price k product_list); [discriminate | contradiction]. }
  split; [exact Hbuild|]; split; [exact Hiff|]; split.
  - intros p Hin Ht Hprice.
    assert (Hr : retained p = true).
    { unfold retained; rewrite Ht; destruct Hprice as [-> | ->]; reflexivity. }
    rewrite forallb_forall in Hlike; specialize (Hlike p Hin).
    unfold product_like, hashable in Hlike.
    apply andb_true_iff in Hlike as [_ Hhash].
    unfold is_key_of, contains.
    destruct (key_of (field p "title")) as [k|] eqn:Hk; [|discriminate].
    assert (Hsome : lookup k catalogue <> None) by (apply Hiff; eauto).
    destruct (lookup k catalogue); [reflexivity | contradiction].
  - intros p acc; apply add_product_skips.
Qed.

Lemma create_price_catalogue_entries_witness :
  forallb product_like mixed_list = true
  /\ exists catalogue,
       create_price_catalogue (VList mixed_list) = Ok catalogue
       /\ is_key_of catalogue (VStr "Free") = true.
Proof.
  split; [reflexivity|].
  destruct (create_price_catalogue_entries mixed_list eq_refl)
    as [catalogue [Hbuild [_ [Hzero _]]]].
  exists catalogue; split; [exact Hbuild|].
  apply (Hzero (product (VStr "Free") (VInt 0)));
    [left; reflexivity | reflexivity | left; reflexivity].
Defined.

(** C3 as stated fails: an element with a truthy title and a price that
    is not None gets no entry when the title is a list; the call raises
    [TypeError]. *)
Lemma create_price_catalogue_list_title :
  forallb retained list_title = true
  /\ create_price_catalogue (VList list_title) = Raise TypeError.
Proof. split; reflexivity. Qed.

(** C4.  For every product list, a title with two or more valid elements
    (or one) is mapped by the catalogue that [create_price_catalogue]
    builds to the price of the last of them in input order: when
    [product] has a truthy title, of key [k], and a price that is not
    None, and no later element is retained under [k], looking the title
    up yields the price of [product]. *)
Theorem create_price_catalogue_last_wins
    (product_list pre post : list value) (product : value)
    (catalogue : dict) (k : key) :
  create_price_catalogue (VList product_list) = Ok catalogue ->
  product_list = (pre ++ product :: post)%list ->
  retained product = true ->
  key_of (field product "title") = Ok k ->
  forallb (fun later => negb (enters k later)) post = true ->
  getitem catalogue (field product "title") = Ok (field product "price").
Proof.
  intros Hbuild -> Hr Hk Hpost.
  rewrite create_price_catalogue_list in Hbuild.
  unfold getitem; rewrite Hk, (build_lookup _ _ _ k Hbuild).
  rewrite last_price_app; [reflexivity | | exact Hpost].
  apply enters_key; split; assumption.
Qed.

(** The example of the specification: the lookup for "X" yields 5. *)
Lemma create_price_catalogue_last_wins_witness :
  create_price_catalogue (VList twice_x) = Ok [(KStr "X", VInt 5)]
  /\ getitem [(KStr "X", VInt 5)] (VStr "X") = Ok (VInt 5).
Proof.
  split; [reflexivity|].
  apply (create_price_catalogue_last_wins twice_x
           [product (VStr "X") (VInt 1)] [] (product (VStr "X") (VInt 5))
           [(KStr "X", VInt 5)] (KStr "X")); reflexivity.
Defined.

End CatalogueClaims.

(** ** Loading and the run of the program: claims C6, C7, C8 and C10 *)

Section RunClaims.
Import Examples.

Lemma load_json_file_cases (fs : filesystem) (filename : str) :
  load_json_file fs filename =
  if negb (fs_encodable filename)
  then ([OpenRead filename], Raise UnicodeEncodeError)
  else if has_nul filename then ([OpenRead filename], Raise ValueError)
  else
    match fs filename with
    | Missing => answered filename (FileNotFound filename)
    | Unreadable => answered filename (UnexpectedReadError filename OSError)
    | NotUtf8 => ([OpenRead filename], Raise UnicodeDecodeError)
    | NotJson | ReportText _ | Truncated =>
        answered filename (InvalidJson filename)
    | TooDeep => ([OpenRead filename], Raise RecursionError)
    | TooLong => ([OpenRead filename], Raise ValueError)
    | Json v => ([OpenRead filename], Ok v)
    end.
Proof.
  unfold load_json_file, open_and_load, answered, print, printable.
  destruct (fs_encodable filename); [|reflexivity].
  destruct (has_nul filename); [reflexivity|].
  destruct (fs filename); try reflexivity;
    simpl; destruct (encodable filename); reflexivity.
Qed.

Lemma encodable_fs_encodable (filename : str) :
  encodable filename = true -> fs_encodable filename = true.
Proof.
  unfold encodable, fs_encodable; rewrite !forallb_forall.
  intros H c Hc; rewrite (H c Hc); reflexivity.
Qed.

Lemma load_json_file_json (fs : filesystem) (filename : str) (v : value) :
  openable filename = true -> fs filename = Json v ->
  load_json_file fs filename = ([OpenRead filename], Ok v).
Proof.
  unfold openable; rewrite andb_true_iff, negb_true_iff; intros [He Hn] Hf.
  rewrite load_json_file_cases, He, Hn, Hf; reflexivity.
Qed.

(** C6: the claim holds of the failures the three handlers name, and
    the code departs from it on a file that is not UTF-8: the read
    raises [UnicodeDecodeError], which none of the handlers catches, so
    the exception leaves [load_json_file] and nothing is printed. *)
Theorem load_json_file_not_utf8 :
  files not_utf8_prices_run "prices.json" = NotUtf8
  /\ load_json_file (files not_utf8_prices_run) "prices.json"
     = ([OpenRead "prices.json"], Raise UnicodeDecodeError).
Proof. split; reflexivity. Qed.

(** What the handlers do cover: under a name that [open] takes and
    [print] can show, a missing or unreadable file and text that is not
    JSON give None after one diagnostic, and a JSON document gives its
    value and no diagnostic. *)
Lemma load_json_file_handled (fs : filesystem) (filename : str) :
  openable filename = true -> encodable filename = true ->
  handled (fs filename) = true ->
  match read_json (fs filename) with
  | Ok v => load_json_file fs filename = ([OpenRead filename], Ok v)
  | Raise _ =>
      exists m,
        load_json_file fs filename = ([OpenRead filename; Print m], Ok VNone)
  end.
Proof.
  unfold openable; rewrite andb_true_iff, negb_true_iff; intros [He Hn] Hp H.
  rewrite load_json_file_cases, He, Hn; unfold answered; rewrite Hp.
  destruct (fs filename); simpl; eauto; discriminate.
Qed.

(** C10: the code departs from the claim through the defect of C6.
    With two arguments and a price file that is not UTF-8, the first call
    of the loader raises and the run ends with the exception: the sales
    file is never opened. *)
Theorem main_not_utf8_price_file :
  List.length (argv not_utf8_prices_run) = 3%nat
  /\ main not_utf8_prices_run
     = ([OpenRead "prices.json"], Raise UnicodeDecodeError)
  /\ ~ In (OpenRead "sales.json") (trace (main not_utf8_prices_run)).
Proof.
  split; [reflexivity|]; split; [reflexivity|].
  intros [H | []]; discriminate.
Qed.

Lemma bind_ok {A B : Type} (m : io event A) (k : A -> io event B)
    (out : list event) (a : A) :
  m = (out, Ok a) -> bind m k = ((out ++ fst (k a))%list, snd (k a)).
Proof. intros ->; simpl; destruct (k a); reflexivity. Qed.

Lemma bind_raise {A B : Type} (m : io event A) (k : A -> io event B)
    (out : list event) (e : exn) :
  m = (out, Raise e) -> bind m k = (out, Raise e).
Proof. intros ->; reflexivity. Qed.

Lemma main_usage (w : world) :
  List.length (argv w) <> 3%nat ->
  main w = ([Print Usage], Raise (SystemExit 1)).
Proof.
  intros H; unfold main.
  apply Nat.eqb_neq in H; rewrite H; reflexivity.
Qed.

Lemma main_two_args (w : world) :
  List.length (argv w) = 3%nat ->
  main w =
  (product_list <- load_json_file (files w) (argument w 1) ;;
   sales_record <- load_json_file (files w) (argument w 2) ;;
   after_loading w product_list sales_record).
Proof.
  intros H; unfold main; rewrite H; reflexivity.
Qed.

Lemma after_loading_none (w : world) (product_list sales_record : value) :
  is_none product_list || is_none sales_record = true ->
  after_loading w product_list sales_record = ([], Raise (SystemExit 1)).
Proof. intros H; unfold after_loading; rewrite H; reflexivity. Qed.

(** When the first call returns, the second is made whatever the first
    returned, and the results are looked at after both. *)
Lemma main_loads_both (w : world) (out1 : list event) (v1 : value) :
  List.length (argv w) = 3%nat ->
  load_json_file (files w) (argument w 1) = (out1, Ok v1) ->
  exists out2 r2 rest,
    load_json_file (files w) (argument w 2) = (out2, r2)
    /\ trace (main w) = (out1 ++ out2 ++ rest)%list.
Proof.
  intros Hargs H1; rewrite (main_two_args w Hargs).
  destruct (load_json_file (files w) (argument w 2))
    as [out2 [v2|e2]] eqn:H2.
  - exists out2, (Ok v2), (fst (after_loading w v1 v2)).
    rewrite (bind_ok _ _ _ _ H1); cbv beta.
    rewrite (bind_ok _ _ out2 v2 eq_refl); auto.
  - exists out2, (Raise e2), [].
    rewrite (bind_ok _ _ _ _ H1); cbv beta.
    rewrite (bind_raise _ _ out2 e2 eq_refl), app_nil_r; auto.
Qed.

Lemma load_json_file_trace (fs : filesystem) (filename : str) :
  forallb before_processing (fst (load_json_file fs filename)) = true.
Proof.
  rewrite load_json_file_cases; unfold answered.
  destruct (negb _); [reflexivity|].
  destruct (has_nul _); [reflexivity|].
  destruct (fs filename); try reflexivity;
    destruct (encodable filename); reflexivity.
Qed.

Lemma load_json_file_raises (fs : filesystem) (filename : str)
    (out : list event) (e : exn) :
  load_json_file fs filename = (out, Raise e) ->
  out = [OpenRead filename] /\ raised_by_loading e = true.
Proof.
  rewrite load_json_file_cases; unfold answered.
  destruct (negb _); [intros [= <- <-]; auto|].
  destruct (has_nul _); [intros [= <- <-]; auto|].
  destruct (fs filename); try discriminate;
    try (intros [= <- <-]; auto);
    destruct (encodable filename); try discriminate; intros [= <- <-]; auto.
Qed.

Lemma load_json_file_loads (fs : filesystem) (filename : str) :
  loads (fs filename) = false ->
  snd (load_json_file fs filename) = Ok VNone
  \/ exists e,
       snd (load_json_file fs filename) = Raise e
       /\ raised_by_loading e = true.
Proof.
  rewrite load_json_file_cases; unfold loads, answered.
  destruct (negb _); [right; eexists; split; reflexivity|].
  destruct (has_nul _); [right; eexists; split; reflexivity|].
  destruct (encodable filename);
    (destruct (fs filename) as [| | | | | |v| |]; simpl; auto;
     try (right; eexists; split; reflexivity));
    destruct v; simpl; auto; discriminate.
Qed.

(** The three ways a run with two arguments ends before the data is
    processed. *)
Lemma main_first_raises (w : world) (out1 : list event) (e : exn) :
  List.length (argv w) = 3%nat ->
  load_json_file (files w) (argument w 1) = (out1, Raise e) ->
  main w = (out1, Raise e).
Proof.
  intros Hargs H1; rewrite (main_two_args w Hargs).
  apply bind_raise; exact H1.
Qed.

Lemma main_second_raises (w : world) (out1 out2 : list event)
    (v1 : value) (e : exn) :
  List.length (argv w) = 3%nat ->
  load_json_file (files w) (argument w 1) = (out1, Ok v1) ->
  load_json_file (files w) (argument w 2) = (out2, Raise e) ->
  main w = ((out1 ++ out2)%list, Raise e).
Proof.
  intros Hargs H1 H2; rewrite (main_two_args w Hargs).
  rewrite (bind_ok _ _ _ _ H1); cbv beta.
  rewrite (bind_raise _ _ _ _ H2); reflexivity.
Qed.

Lemma main_loaded (w : world) (out1 out2 : list event) (v1 v2 : value) :
  List.length (argv w) = 3%nat ->
  load_json_file (files w) (argument w 1) = (out1, Ok v1) ->
  load_json_file (files w) (argument w 2) = (out2, Ok v2) ->
  main w = ((out1 ++ out2 ++ fst (after_loading w v1 v2))%list,
            snd (after_loading w v1 v2)).
Proof.
  intros Hargs H1 H2; rewrite (main_two_args w Hargs).
  rewrite (bind_ok _ _ _ _ H1); cbv beta.
  rewrite (bind_ok _ _ _ _ H2); reflexivity.
Qed.

Lemma main_early_exit (w : world) :
  List.length (argv w) = 3%nat ->
  (exists out, load_json_file (files w) (argument w 1) = (out, Ok VNone))
  \/ snd (load_json_file (files w) (argument w 2)) = Ok VNone
  \/ (exists e, snd (load_json_file (files w) (argument w 1)) = Raise e)
  \/ (exists e, snd (load_json_file (files w) (argument w 2)) = Raise e) ->
  exists e,
    main w = ((fst (load_json_file (files w) (argument w 1))
               ++ match snd (load_json_file (files w) (argument w 1)) with
                  | Ok _ => fst (load_json_file (files w) (argument w 2))
                  | Raise _ => []
                  end)%list,
              Raise e)
    /\ (e = SystemExit 1 \/ raised_by_loading e = true).
Proof.
  intros Hargs H.
  destruct (load_json_file (files w) (argument w 1))
    as [out1 [v1|e1]] eqn:H1.
  - destruct (load_json_file (files w) (argument w 2))
      as [out2 [v2|e2]] eqn:H2; simpl fst; simpl snd; cbv iota.
    + assert (Hnone : is_none v1 || is_none v2 = true).
      { simpl in H; destruct H as [[o H] | [H | [[e H] | [e H]]]];
          try discriminate.
        - injection H as _ ->; reflexivity.
        - injection H as ->; apply orb_true_r. }
      rewrite (main_loaded w _ _ _ _ Hargs H1 H2).
      rewrite (after_loading_none w v1 v2 Hnone); simpl.
      rewrite app_nil_r; eauto.
    + rewrite (main_second_raises w _ _ _ _ Hargs H1 H2).
      destruct (load_json_file_raises _ _ _ _ H2); eauto.
  - rewrite (main_first_raises w _ _ Hargs H1); simpl.
    rewrite app_nil_r.
    destruct (load_json_file_raises _ _ _ _ H1); eauto.
Qed.

Lemma early_exit_effects (w : world) (e : exn) :
  main w = ((fst (load_json_file (files w) (argument w 1))
             ++ match snd (load_json_file (files w) (argument w 1)) with
                | Ok _ => fst (load_json_file (files w) (argument w 2))
                | Raise _ => []
                end)%list,
            Raise e) ->
  e = SystemExit 1 \/ raised_by_loading e = true ->
  exit_code (main w) = 1
  /\ forallb before_processing (trace (main w)) = true
  /\ forall name, files_after w name = files w name.
Proof.
  intros Hmain He; unfold exit_code, trace, files_after; rewrite Hmain.
  simpl fst; simpl snd; split; [|split].
  - destruct He as [-> | He]; [reflexivity|].
    destruct e; try discriminate; reflexivity.
  - rewrite forallb_app, load_json_file_trace.
    destruct (snd (load_json_file (files w) (argument w 1)));
      [apply load_json_file_trace | reflexivity].
  - reflexivity.
Qed.

(** C8.  For every run in which the price-catalogue file is missing, or
    in which one of the two calls of the loader returns None, the process
    ends with exit code 1 before any aggregation or report output: the
    run shows nothing but the loading of the files and its diagnostics
    (or the usage message), and it leaves every file, SalesResults.txt
    among them, as it was. *)
Theorem main_failed_load_leaves_results (w : world) :
  files w (argument w 1) = Missing
  \/ snd (load_json_file (files w) (argument w 1)) = Ok VNone
  \/ snd (load_json_file (files w) (argument w 2)) = Ok VNone ->
  exit_code (main w) = 1
  /\ forallb before_processing (trace (main w)) = true
  /\ forall name, files_after w name = files w name.
Proof.
  intros H.
  destruct (Nat.eq_dec (List.length (argv w)) 3) as [Hargs|Hargs].
  - destruct (main_early_exit w Hargs) as [e [Hmain He]].
    + destruct H as [H | [H | H]].
      * assert (L : loads (files w (argument w 1)) = false)
          by (rewrite H; reflexivity).
        destruct (load_json_file_loads _ _ L) as [L' | [e' [L' _]]];
          [left | right; right; left; eauto].
        destruct (load_json_file (files w) (argument w 1)) as [o r].
        simpl in L'; subst r; eauto.
      * left.
        destruct (load_json_file (files w) (argument w 1)) as [o r].
        simpl in H; subst r; eauto.
      * right; left; exact H.
    + exact (early_exit_effects w e Hmain He).
  - unfold exit_code, trace, files_after; rewrite (main_usage w Hargs).
    repeat split.
Qed.

Lemma main_failed_load_leaves_results_witness :
  files missing_prices_run (argument missing_prices_run 1) = Missing
  /\ exit_code (main missing_prices_run) = 1
  /\ files_after missing_prices_run "SalesResults.txt" = Missing.
Proof.
  split; [reflexivity|].
  destruct (main_failed_load_leaves_results missing_prices_run
              (or_introl eq_refl)) as [Hexit [_ Hfiles]].
  split; [exact Hexit | apply Hfiles].
Defined.





End RunClaims.


(** ** Further properties of [create_price_catalogue] *)

Section CatalogueProperties.
Import Examples Behaviour.

Lemma add_product_not_object (catalogue : dict) (product : value) :
  is_object product = false ->
  add_product catalogue product = Raise AttributeError.
Proof. destruct product; try reflexivity; discriminate. Qed.

Lemma add_product_unhashable (catalogue : dict) (product : value) :
  is_object product = true -> buildable product = false ->
  add_product catalogue product = Raise TypeError.
Proof.
  unfold buildable, hashable; intros Ho; rewrite Ho; simpl andb.
  destruct product; try discriminate.
  rewrite add_product_object.
  destruct (retained (VDict d)); [|discriminate]; simpl.
  unfold setitem.
  destruct (field (VDict d) "title"); simpl; try discriminate; reflexivity.
Qed.

Lemma add_product_buildable (catalogue : dict) (product : value) :
  buildable product = true ->
  exists catalogue', add_product catalogue product = Ok catalogue'.
Proof.
  unfold buildable, hashable; intros H.
  apply andb_true_iff in H as [Ho H].
  destruct product; try discriminate.
  rewrite add_product_object.
  destruct (retained (VDict d)); [|eauto]; simpl in H.
  unfold setitem; destruct (key_of (field (VDict d) "title"));
    [eauto | discriminate].
Qed.

Lemma build_buildable (l : list value) (acc : dict) :
  forallb buildable l = true ->
  exists catalogue, for_in l add_product acc = Ok catalogue.
Proof.
  revert acc; induction l as [|p l IH]; intros acc; simpl forallb.
  - exists acc; reflexivity.
  - rewrite andb_true_iff; intros [Hp Hl].
    destruct (add_product_buildable acc p Hp) as [acc' Hacc].
    rewrite for_in_cons, Hacc; auto.
Qed.

Lemma build_stops (pre post : list value) (product : value) (acc : dict) :
  forallb buildable pre = true -> buildable product = false ->
  for_in (pre ++ product :: post) add_product acc
  = Raise (if is_object product then TypeError else AttributeError).
Proof.
  revert acc; induction pre as [|p pre IH]; intros acc; simpl forallb.
  - intros _ Hp; simpl app; rewrite for_in_cons.
    destruct (is_object product) eqn:Ho.
    + rewrite (add_product_unhashable acc product Ho Hp); reflexivity.
    + rewrite (add_product_not_object acc product Ho); reflexivity.
  - rewrite andb_true_iff; intros [Hp Hpre] Hbad.
    destruct (add_product_buildable acc p Hp) as [acc' Hacc].
    simpl app; rewrite for_in_cons, Hacc; auto.
Qed.

Lemma first_not_buildable (l : list value) :
  forallb buildable l = false ->
  exists pre product post,
    l = (pre ++ product :: post)%list
    /\ forallb buildable pre = true /\ buildable product = false.
Proof.
  induction l as [|p l IH]; simpl; [discriminate|].
  destruct (buildable p) eqn:Hp; simpl.
  - intros H; destruct (IH H) as [pre [q [post [-> [Hpre Hq]]]]].
    exists (p :: pre), q, post; simpl; rewrite Hp, Hpre; auto.
  - intros _; exists [], p, l; auto.
Qed.

(** X1.  [create_price_catalogue] returns a catalogue for a list exactly
    when every element is a JSON object whose title, if the element has a
    truthy title and a price that is not None, is not an array or an
    object; otherwise it raises at the first element that is not so,
    [AttributeError] when that element is not an object and [TypeError]
    when its title cannot be a key, whatever comes after it. *)
Theorem create_price_catalogue_succeeds_iff (product_list : list value) :
  (is_ok (create_price_catalogue (VList product_list)) = true
   <-> forallb buildable product_list = true)
  /\ (forall pre product post,
        product_list = (pre ++ product :: post)%list ->
        forallb buildable pre = true -> buildable product = false ->
        create_price_catalogue (VList product_list)
        = Raise (if is_object product then TypeError else AttributeError)).
Proof.
  rewrite create_price_catalogue_list; split.
  - split.
    + intros Hok.
      destruct (forallb buildable product_list) eqn:Hall; [reflexivity|].
      destruct (first_not_buildable _ Hall) as [pre [p [post [-> [Hpre Hp]]]]].
      rewrite (build_stops pre post p [] Hpre Hp) in Hok; discriminate.
    + intros Hall; destruct (build_buildable _ [] Hall) as [c ->].
      reflexivity.
  - intros pre p post -> Hpre Hp; apply build_stops; assumption.
Qed.

Lemma create_price_catalogue_succeeds_iff_witness :
  forallb buildable apple_list = true
  /\ buildable (VInt 7) = false
  /\ create_price_catalogue (VList broken_list) = Raise AttributeError.
Proof.
  split; [reflexivity|]; split; [reflexivity|].
  apply (proj2 (create_price_catalogue_succeeds_iff broken_list)
           (apple_list ++ [VDict [(KStr "price", VInt 1)]])%list (VInt 7) []);
    reflexivity.
Defined.

Lemma integral_nonzero (f : float) (z : Z) :
  is_zero f = false -> integral f = Some z -> z <> 0.
Proof.
  destruct f as [s|s| |s m e]; try discriminate.
  intros _; unfold integral.
  assert (Hpos : forall x, 0 < x -> cond_Zopp s x <> 0).
  { intros x Hx; unfold cond_Zopp; destruct s; lia. }
  destruct (0 <=? e) eqn:He.
  - intros Hz.
    assert (E : cond_Zopp s (Z.pos m * 2 ^ e) = z) by congruence.
    rewrite <- E; apply Z.leb_le in He; apply Hpos.
    apply Z.mul_pos_pos; [lia | apply Z.pow_pos_nonneg; lia].
  - destruct (Z.pos m mod 2 ^ (- e) =? 0) eqn:Hm; [|discriminate].
    intros Hz.
    assert (E : cond_Zopp s (Z.pos m / 2 ^ (- e)) = z) by congruence.
    rewrite <- E; apply Hpos.
    apply Z.eqb_eq in Hm; apply Z.leb_gt in He.
    assert (Hd : 0 < 2 ^ (- e)) by (apply Z.pow_pos_nonneg; lia).
    pose proof (Z.div_mod (Z.pos m) (2 ^ (- e)) ltac:(lia)) as Hdm.
    rewrite Hm in Hdm.
    remember (2 ^ (- e)) as d; remember (Z.pos m / d) as q.
    assert (0 < Z.pos m) by lia; nia.
Qed.

Lemma key_of_truthy (v : value) (k : key) :
  truthy v = true -> key_of v = Ok k -> falsy_key k = false.
Proof.
  destruct v; simpl; try discriminate.
  - intros -> [= <-]; reflexivity.
  - intros H [= <-]; simpl; apply negb_true_iff in H; exact H.
  - intros H [= <-]; apply negb_true_iff in H.
    destruct (integral f) as [z|] eqn:Hz; simpl.
    + apply Z.eqb_neq; eapply integral_nonzero; eauto.
    + exact H.
  - intros H [= <-]; destruct s; [discriminate | reflexivity].
Qed.

Lemma key_of_falsy (v : value) (k : key) :
  truthy v = false -> key_of v = Ok k -> falsy_key k = true.
Proof.
  destruct v; simpl; try discriminate.
  - intros _ [= <-]; reflexivity.
  - intros -> [= <-]; reflexivity.
  - intros H [= <-]; simpl; apply negb_false_iff in H; exact H.
  - intros H [= <-]; apply negb_false_iff in H.
    destruct f; try discriminate; reflexivity.
  - intros H [= <-]; destruct s; [reflexivity | discriminate].
Qed.

Lemma lookup_in (k : key) (d : dict) (v : value) :
  lookup k d = Some v -> In (k, v) d.
Proof.
  induction d as [|[k0 v0] d IH]; simpl; [discriminate|].
  destruct (key_eqb k k0) eqn:E.
  - apply key_eqb_eq in E; subst k0; intros [= ->]; auto.
  - auto.
Qed.

Lemma lookup_none_keys (k : key) (d : dict) :
  lookup k d = None <-> ~ In k (map fst d).
Proof.
  induction d as [|[k0 v0] d IH]; simpl; [tauto|].
  destruct (key_eqb k k0) eqn:E.
  - apply key_eqb_eq in E; subst k0; split; [discriminate | tauto].
  - rewrite IH; split; [|tauto].
    intros H [H0 | H0]; [|tauto].
    subst k0; rewrite key_eqb_refl in E; discriminate.
Qed.

Lemma store_keys (k : key) (v : value) (d : dict) :
  map fst (store k v d)
  = match lookup k d with
    | Some _ => map fst d
    | None => (map fst d ++ [k])%list
    end.
Proof.
  induction d as [|[k0 v0] d IH]; simpl; [reflexivity|].
  destruct (key_eqb k k0); simpl; [reflexivity|].
  rewrite IH; destruct (lookup k d); reflexivity.
Qed.

Lemma store_in (k k' : key) (v v' : value) (d : dict) :
  In (k', v') (store k v d) -> In (k', v') d \/ (k', v') = (k, v).
Proof.
  induction d as [|[k0 v0] d IH]; simpl.
  - intros [H | []]; right; symmetry; exact H.
  - destruct (key_eqb k k0) eqn:E; simpl.
    + apply key_eqb_eq in E; subst k0; intros [H | H]; auto.
    + intros [H | H]; [auto | destruct (IH H); auto].
Qed.

Lemma NoDup_snoc {A : Type} (x : A) (l : list A) :
  ~ In x l -> NoDup l -> NoDup (l ++ [x]).
Proof.
  induction l as [|y l IH]; simpl; intros Hx Hl.
  - constructor; [tauto | constructor].
  - inversion Hl as [|? ? Hy Hl']; subst.
    constructor; [|apply IH; tauto].
    rewrite in_app_iff; simpl; intros [H | [H | []]]; [tauto|].
    subst; tauto.
Qed.

Lemma add_product_sound (acc catalogue : dict) (product : value) :
  sound_items acc -> add_product acc product = Ok catalogue ->
  sound_items catalogue
  /\ (List.length catalogue
      <= List.length acc + (if retained product then 1 else 0))%nat.
Proof.
  intros [Hnd Hitems] Hadd.
  destruct product; try discriminate.
  rewrite add_product_object in Hadd.
  destruct (retained (VDict d)) eqn:Hr.
  - unfold setitem in Hadd.
    destruct (key_of (field (VDict d) "title")) as [k|] eqn:Hk;
      [|discriminate].
    injection Hadd as <-.
    unfold retained in Hr; apply andb_true_iff in Hr as [Ht Hp].
    split; [split|].
    + rewrite store_keys.
      destruct (lookup k acc) eqn:Hl; [exact Hnd|].
      apply NoDup_snoc; [apply lookup_none_keys; exact Hl | exact Hnd].
    + intros k' v' Hin; apply store_in in Hin as [Hin | [= -> ->]]; auto.
      split; [eapply key_of_truthy; eauto | apply negb_true_iff; exact Hp].
    + assert (Hlen : (List.length (map fst (store k (field (VDict d) "price") acc))
                      <= List.length acc + 1)%nat).
      { rewrite store_keys; destruct (lookup k acc);
          [|rewrite length_app]; rewrite length_map; simpl; lia. }
      rewrite length_map in Hlen; exact Hlen.
  - injection Hadd as <-; split; [split; assumption | lia].
Qed.

Lemma build_sound (l : list value) (acc catalogue : dict) :
  sound_items acc -> for_in l add_product acc = Ok catalogue ->
  sound_items catalogue
  /\ (List.length catalogue
      <= List.length acc + List.length (filter retained l))%nat.
Proof.
  revert acc; induction l as [|p l IH]; intros acc Hacc.
  - intros [= <-]; split; [exact Hacc | simpl; lia].
  - rewrite for_in_cons.
    destruct (add_product acc p) as [acc'|e] eqn:Hp; [|discriminate].
    intros Hbuild.
    destruct (add_product_sound acc acc' p Hacc Hp) as [Hacc' Hlen].
    destruct (IH acc' Hacc' Hbuild) as [Hcat Hlen'].
    split; [exact Hcat|].
    simpl filter; destruct (retained p); simpl in *; lia.
Qed.

Lemma sound_items_nil : sound_items [].
Proof. split; [constructor | intros k v []]. Qed.

(** X2.  A catalogue that [create_price_catalogue] builds never has a
    falsy title (None, False, 0, 0.0, the empty string) among its keys,
    and never yields None as a price: asking whether such a title is in
    it answers no, and every price looked up is a value that was not
    None. *)
Theorem create_price_catalogue_no_falsy_entry
    (product_list : list value) (catalogue : dict) :
  create_price_catalogue (VList product_list) = Ok catalogue ->
  (forall title,
     truthy title = false -> hashable title = true ->
     contains catalogue title = Ok false)
  /\ (forall title price,
        getitem catalogue title = Ok price -> is_none price = false).
Proof.
  rewrite create_price_catalogue_list; intros Hbuild.
  destruct (build_sound _ _ _ sound_items_nil Hbuild) as [[_ Hitems] _].
  split.
  - intros title Hf Hh; unfold contains; unfold hashable in Hh.
    destruct (key_of title) as [k|] eqn:Hk; [|discriminate].
    destruct (lookup k catalogue) as [v|] eqn:Hl; [|reflexivity].
    apply lookup_in in Hl; destruct (Hitems k v Hl) as [Hkey _].
    rewrite (key_of_falsy title k Hf Hk) in Hkey; discriminate.
  - intros title price; unfold getitem.
    destruct (key_of title) as [k|]; [|discriminate].
    destruct (lookup k catalogue) as [v|] eqn:Hl; [|discriminate].
    intros [= <-]; apply lookup_in in Hl; apply (Hitems k v Hl).
Qed.

Lemma create_price_catalogue_no_falsy_entry_witness :
  create_price_catalogue (VList mixed_list) = Ok [(KStr "Free", VInt 0)]
  /\ contains [(KStr "Free", VInt 0)] (VStr EmptyString) = Ok false
  /\ contains [(KStr "Free", VInt 0)] VNone = Ok false.
Proof.
  split; [reflexivity|].
  destruct (create_price_catalogue_no_falsy_entry mixed_list
              [(KStr "Free", VInt 0)] eq_refl) as [H _].
  split; apply H; reflexivity.
Defined.

(** X3.  A catalogue that [create_price_catalogue] builds has one item
    per key, and no more items than the list has elements with a truthy
    title and a price that is not None. *)
Theorem create_price_catalogue_size
    (product_list : list value) (catalogue : dict) :
  create_price_catalogue (VList product_list) = Ok catalogue ->
  NoDup (map fst catalogue)
  /\ (List.length catalogue <= List.length (filter retained product_list)
      <= List.length product_list)%nat.
Proof.
  rewrite create_price_catalogue_list; intros Hbuild.
  destruct (build_sound _ _ _ sound_items_nil Hbuild) as [[Hnd _] Hlen].
  split; [exact Hnd|]; split; [exact Hlen | apply filter_length_le].
Qed.

Lemma create_price_catalogue_size_witness :
  create_price_catalogue (VList twice_x) = Ok [(KStr "X", VInt 5)]
  /\ (List.length [(KStr "X", VInt 5)]
      <= List.length (filter retained twice_x) <= List.length twice_x)%nat.
Proof.
  split; [reflexivity|].
  apply (create_price_catalogue_size twice_x [(KStr "X", VInt 5)] eq_refl).
Defined.

Lemma build_filter (l : list value) (acc catalogue : dict) :
  for_in l add_product acc = Ok catalogue ->
  for_in (filter retained l) add_product acc = Ok catalogue.
Proof.
  revert acc; induction l as [|p l IH]; intros acc; [auto|].
  rewrite for_in_cons; simpl filter.
  destruct (add_product acc p) as [acc'|e] eqn:Hp; [|discriminate].
  destruct (retained p) eqn:Hr.
  - rewrite for_in_cons, Hp; apply IH.
  - destruct p; try discriminate.
    rewrite add_product_object, Hr in Hp; injection Hp as <-; apply IH.
Qed.

(** X4.  The elements without a truthy title or with a None price play
    no part: when [create_price_catalogue] builds a catalogue from a
    list, it builds the same catalogue, item for item, from the list
    without them. *)
Theorem create_price_catalogue_on_retained
    (product_list : list value) (catalogue : dict) :
  create_price_catalogue (VList product_list) = Ok catalogue ->
  create_price_catalogue (VList (filter retained product_list))
  = Ok catalogue.
Proof.
  rewrite !create_price_catalogue_list; apply build_filter.
Qed.

Lemma create_price_catalogue_on_retained_witness :
  filter retained mixed_list = [product (VStr "Free") (VInt 0)]
  /\ create_price_catalogue (VList (filter retained mixed_list))
     = Ok [(KStr "Free", VInt 0)].
Proof.
  split; [reflexivity|].
  apply (create_price_catalogue_on_retained mixed_list); reflexivity.
Defined.

Lemma for_in_app_result {S X : Type} (l1 l2 : list X)
    (body : S -> X -> result S) (s : S) :
  for_in (l1 ++ l2) body s =
  match for_in l1 body s with
  | Ok s' => for_in l2 body s'
  | Raise e => Raise e
  end.
Proof.
  revert s; induction l1 as [|x l1 IH]; intros s; [reflexivity|].
  simpl app; rewrite !for_in_cons.
  destruct (body s x); [apply IH | reflexivity].
Qed.

(** X5.  Building from a list followed by another goes on from the
    catalogue of the first.  If the first alone makes
    [create_price_catalogue] raise, so does the whole, with the same
    exception; and in a catalogue built from the whole, a key has the
    price of the last element of the second list retained under it, or,
    when the second list has none, what the catalogue of the first list
    has for it. *)
Theorem create_price_catalogue_app (first second : list value) :
  (forall e,
     create_price_catalogue (VList first) = Raise e ->
     create_price_catalogue (VList (first ++ second)) = Raise e)
  /\ (forall catalogue,
        create_price_catalogue (VList (first ++ second)) = Ok catalogue ->
        exists earlier,
          create_price_catalogue (VList first) = Ok earlier
          /\ forall k,
               lookup k catalogue =
               match last_price k second with
               | Some price => Some price
               | None => lookup k earlier
               end).
Proof.
  rewrite !create_price_catalogue_list, for_in_app_result; split.
  - intros e ->; reflexivity.
  - intros catalogue.
    destruct (for_in first add_product []) as [earlier|e]; [|discriminate].
    intros Hbuild; exists earlier; split; [reflexivity|].
    intros k; apply build_lookup; exact Hbuild.
Qed.

Lemma create_price_catalogue_app_witness :
  create_price_catalogue (VList (list_title ++ apple_list)) = Raise TypeError
  /\ exists earlier,
       create_price_catalogue (VList twice_x) = Ok earlier
       /\ lookup (KStr "X") [(KStr "X", VInt 5); (KStr "Apple", VFloat f2_5)]
          = lookup (KStr "X") earlier.
Proof.
  split.
  - apply (proj1 (create_price_catalogue_app list_title apple_list)).
    reflexivity.
  - destruct (proj2 (create_price_catalogue_app twice_x apple_list)
                [(KStr "X", VInt 5); (KStr "Apple", VFloat f2_5)] eq_refl)
      as [earlier [Hbuild Hlook]].
    exists earlier; split; [exact Hbuild | apply (Hlook (KStr "X"))].
Defined.

End CatalogueProperties.


(** ** Further properties of [compute_total_sales] *)

Section AggregationProperties.
Import Examples Behaviour.

Lemma for_in_io_app {S X : Type} (l1 l2 : list X)
    (body : S -> X -> io event S) (s : S) :
  for_in (l1 ++ l2) body s =
  match for_in l1 body s with
  | (out, Ok s') =>
      let (out', r) := for_in l2 body s' in ((out ++ out')%list, r)
  | (out, Raise e) => (out, Raise e)
  end.
Proof.
  revert s; induction l1 as [|x l1 IH]; intros s.
  - simpl; destruct (for_in l2 body s); reflexivity.
  - simpl app; rewrite !for_in_io_cons.
    destruct (body s x) as [out [s'|e]]; [|reflexivity].
    rewrite IH.
    destruct (for_in l1 body s') as [out1 [s1|e1]]; [|reflexivity].
    destruct (for_in l2 body s1) as [out2 r]; rewrite app_assoc; reflexivity.
Qed.

Lemma skip_in_place (catalogue : dict) (diagnostics : list event)
    (sale : value) (pre post : list value) :
  (forall total, add_sale catalogue total sale = (diagnostics, Ok total)) ->
  skipped_with catalogue diagnostics sale pre post.
Proof.
  intros Hskip; unfold skipped_with.
  rewrite !compute_total_sales_list, !for_in_io_app.
  destruct (for_in pre (add_sale catalogue) fzero) as [out [total|e]];
    cbv beta iota.
  - rewrite for_in_io_cons, Hskip.
    destruct (for_in post (add_sale catalogue) total) as [later r].
    split; [reflexivity|].
    intros _; exists later; split; reflexivity.
  - split; [reflexivity | discriminate].
Qed.

(** X6.  A sale record that is a JSON object with a falsy or missing
    Product, or with a missing or null Quantity, is skipped with the one
    diagnostic that shows the record, whatever its other field holds and
    whatever the catalogue: the total and every other diagnostic of the
    call are as without the record. *)
Theorem incomplete_record_skipped
    (catalogue : dict) (sale : value) (pre post : list value) :
  is_object sale = true ->
  truthy (field sale "Product") = false
  \/ is_none (field sale "Quantity") = true ->
  skipped_with catalogue [Print (InvalidSale sale)] sale pre post.
Proof.
  intros Ho H; apply skip_in_place; intros total.
  destruct sale; try discriminate.
  rewrite add_sale_object; unfold add_sale_cases.
  destruct H as [-> | ->]; [reflexivity | rewrite orb_true_r; reflexivity].
Qed.

Lemma incomplete_record_skipped_witness :
  skipped_with apples
    [Print (InvalidSale (sale (VList [VInt 1]) VNone))]
    (sale (VList [VInt 1]) VNone) four_apples all_invalid.
Proof.
  apply (incomplete_record_skipped apples (sale (VList [VInt 1]) VNone));
    [reflexivity | right; reflexivity].
Defined.

(** X7.  A sale record with a truthy Product and a Quantity that is a
    string which [float] rejects is skipped with the one diagnostic that
    names the product and the quantity, provided that neither is a string
    that holds a surrogate code point.  The catalogue is not looked at:
    it makes no difference whether the product is known, or could be a
    key at all.  When one of the two is a string with a surrogate, the
    diagnostic cannot be printed: the turn of the loop prints nothing and
    raises [UnicodeEncodeError]. *)
Theorem invalid_quantity_skipped
    (catalogue : dict) (sale : value) (s : str) (e : exn)
    (pre post : list value) :
  is_object sale = true ->
  truthy (field sale "Product") = true ->
  field sale "Quantity" = VStr s ->
  float_of_string s = Raise e ->
  (interpolable (field sale "Product") && encodable s = true ->
   skipped_with catalogue
     [Print (InvalidQuantity (field sale "Product") (VStr s))] sale pre post)
  /\ (interpolable (field sale "Product") && encodable s = false ->
      forall total,
        add_sale catalogue total sale = ([], Raise UnicodeEncodeError)).
Proof.
  intros Ho Ht Hq He.
  assert (Hstep : forall total,
    add_sale catalogue total sale
    = diagnosed (InvalidQuantity (field sale "Product") (VStr s)) total).
  { intros total; destruct sale; try discriminate.
    rewrite add_sale_object; unfold add_sale_cases.
    rewrite Ht, Hq; simpl; rewrite He.
    rewrite (float_of_string_raises s e He); reflexivity. }
  split; intros Hp.
  - apply skip_in_place; intros total.
    rewrite Hstep; unfold diagnosed, printable; simpl interpolable.
    rewrite Hp; reflexivity.
  - intros total.
    rewrite Hstep; unfold diagnosed, printable; simpl interpolable.
    rewrite Hp; reflexivity.
Qed.

Lemma invalid_quantity_skipped_witness :
  skipped_with apples
    [Print (InvalidQuantity (VList [VInt 1]) (VStr "abc"))]
    (sale (VList [VInt 1]) (VStr "abc")) four_apples all_invalid
  /\ add_sale apples f10 (sale (VStr "Apple") (VStr lone_surrogate))
     = ([], Raise UnicodeEncodeError).
Proof.
  split.
  - apply (proj1 (invalid_quantity_skipped apples
                    (sale (VList [VInt 1]) (VStr "abc")) "abc" ValueError
                    four_apples all_invalid
                    eq_refl eq_refl eq_refl eq_refl)).
    reflexivity.
  - apply (proj2 (invalid_quantity_skipped apples
                    (sale (VStr "Apple") (VStr lone_surrogate)) lone_surrogate
                    ValueError [] []
                    eq_refl eq_refl eq_refl eq_refl)).
    reflexivity.
Defined.

(** X8.  A sale record with a truthy Product that is not a key of the
    catalogue and a Quantity that [float] accepts is skipped with the one
    warning that names the product, provided that the Product is not a
    string that holds a surrogate code point; when it is, the warning
    cannot be printed: the turn of the loop prints nothing and raises
    [UnicodeEncodeError]. *)
Theorem unknown_product_skipped
    (catalogue : dict) (sale : value) (quantity : float)
    (pre post : list value) :
  is_object sale = true ->
  truthy (field sale "Product") = true ->
  to_float (field sale "Quantity") = Ok quantity ->
  contains catalogue (field sale "Product") = Ok false ->
  (interpolable (field sale "Product") = true ->
   skipped_with catalogue
     [Print (UnknownProduct (field sale "Product"))] sale pre post)
  /\ (interpolable (field sale "Product") = false ->
      forall total,
        add_sale catalogue total sale = ([], Raise UnicodeEncodeError)).
Proof.
  intros Ho Ht Hq Hc.
  assert (Hstep : forall total,
    add_sale catalogue total sale
    = diagnosed (UnknownProduct (field sale "Product")) total).
  { intros total; destruct sale; try discriminate.
    rewrite add_sale_object; unfold add_sale_cases.
    rewrite Ht, Hq, Hc, (to_float_not_none _ _ Hq); reflexivity. }
  split; intros Hp.
  - apply skip_in_place; intros total.
    rewrite Hstep; unfold diagnosed, printable; rewrite Hp; reflexivity.
  - intros total.
    rewrite Hstep; unfold diagnosed, printable; rewrite Hp; reflexivity.
Qed.

Lemma unknown_product_skipped_witness :
  skipped_with apples [Print (UnknownProduct (VStr "Pear"))]
    (sale (VStr "Pear") (VInt 1)) four_apples all_invalid
  /\ add_sale apples f10 (sale (VStr lone_surrogate) (VInt 1))
     = ([], Raise UnicodeEncodeError).
Proof.
  split.
  - apply (proj1 (unknown_product_skipped apples
                    (sale (VStr "Pear") (VInt 1)) fone four_apples all_invalid
                    eq_refl eq_refl eq_refl eq_refl)).
    reflexivity.
  - apply (proj2 (unknown_product_skipped apples
                    (sale (VStr lone_surrogate) (VInt 1)) fone [] []
                    eq_refl eq_refl eq_refl eq_refl)).
    reflexivity.
Defined.

(** X9.  A sale record with a truthy Product that is a key of the
    catalogue under a numeric price, and with a Quantity that [float]
    accepts, adds price times quantity to the total reached by the
    records before it and prints nothing.  Nothing is asked of the sign
    or the size of the quantity: a negative one, an infinite one or a nan
    is added like any other. *)
Theorem counting_record_added
    (catalogue : dict) (sale price : value) (p q total : float)
    (pre : list value) (out : list event) :
  is_object sale = true ->
  truthy (field sale "Product") = true ->
  getitem catalogue (field sale "Product") = Ok price ->
  is_number price = true ->
  to_float price = Ok p ->
  to_float (field sale "Quantity") = Ok q ->
  compute_total_sales catalogue (VList pre) = (out, Ok total) ->
  compute_total_sales catalogue (VList (pre ++ [sale]))
  = (out, Ok (fadd total (fmul p q))).
Proof.
  intros Ho Ht Hg Hn Hp Hq Hpre.
  rewrite compute_total_sales_list in *.
  rewrite for_in_io_app, Hpre, for_in_io_cons.
  rewrite (add_sale_counting catalogue total sale price p q Ho Ht Hg Hn Hp Hq).
  simpl; rewrite app_nil_r; reflexivity.
Qed.

Lemma counting_record_added_witness :
  compute_total_sales apples
    (VList (four_apples ++ [sale (VStr "Apple") (VStr "-inf")]))
  = ([], Ok (fadd f10 (fmul f2_5 (S754_infinity true)))).
Proof.
  apply (counting_record_added apples (sale (VStr "Apple") (VStr "-inf"))
           (VFloat f2_5) f2_5 (S754_infinity true) f10 four_apples []);
    reflexivity.
Defined.





(** X11.  The records are taken in order and an exception ends the
    call.  What [compute_total_sales] prints for a list is the beginning
    of what it prints for the list with more records after it; and when a
    list makes it raise, it does on every such longer list exactly what
    it does on that list: the later records are neither added nor
    diagnosed, and no total is returned. *)
Theorem compute_total_sales_prefix
    (catalogue : dict) (first second : list value) :
  begins (trace (compute_total_sales catalogue (VList first)))
         (trace (compute_total_sales catalogue (VList (first ++ second))))
  /\ (forall e,
        snd (compute_total_sales catalogue (VList first)) = Raise e ->
        compute_total_sales catalogue (VList (first ++ second))
        = compute_total_sales catalogue (VList first)).
Proof.
  unfold begins, trace; rewrite !compute_total_sales_list, for_in_io_app.
  destruct (for_in first (add_sale catalogue) fzero) as [out [total|e]].
  - destruct (for_in second (add_sale catalogue) total) as [out' r].
    split; [exists out'; reflexivity | discriminate].
  - split; [exists []; simpl; rewrite app_nil_r; reflexivity | reflexivity].
Qed.

Lemma compute_total_sales_prefix_witness :
  compute_total_sales apples (VList (list_quantity ++ assorted))
  = ([], Raise TypeError).
Proof.
  apply (proj2 (compute_total_sales_prefix apples list_quantity assorted)
           TypeError).
  reflexivity.
Defined.

Lemma float_of_int_raises (z : Z) (e : exn) :
  float_of_int z = Raise e -> e = OverflowError.
Proof.
  unfold float_of_int.
  destruct (binary_normalize prec emax z 0 false); congruence.
Qed.

Lemma to_float_raises (v : value) (e : exn) :
  to_float v = Raise e ->
  e = ValueError \/ raised_by_data e = true.
Proof.
  destruct v; simpl; try discriminate;
    try (intros [= <-]; right; reflexivity).
  - intros H; apply float_of_int_raises in H; subst; right; reflexivity.
  - intros H; apply float_of_string_raises in H; auto.
Qed.

Lemma mul_float_raises (price : value) (q : float) (e : exn) :
  mul_float price q = Raise e -> raised_by_data e = true.
Proof.
  destruct price; unfold mul_float; simpl;
    try (intros [= <-]; reflexivity); try discriminate.
  destruct (float_of_int z) eqn:Hz; [discriminate|].
  intros [= <-]; apply float_of_int_raises in Hz; subst; reflexivity.
Qed.

Lemma key_of_raises (v : value) (e : exn) :
  key_of v = Raise e -> e = TypeError.
Proof. destruct v; simpl; congruence. Qed.

Lemma data_error (e : exn) (P : Prop) :
  raised_by_data e = true ->
  raised_by_aggregation e = true /\ (e = UnicodeEncodeError -> P).
Proof.
  destruct e; try discriminate; (split; [reflexivity | discriminate]).
Qed.

Lemma diagnosed_effects (m : message) (total : float) :
  advisory (Print m) = true ->
  forallb advisory (fst (diagnosed m total)) = true
  /\ forall e,
       snd (diagnosed m total) = Raise e ->
       e = UnicodeEncodeError /\ printable m = false.
Proof.
  intros H; unfold diagnosed; destruct (printable m).
  - split; [unfold fst, forallb; rewrite H; reflexivity | discriminate].
  - split; [reflexivity | intros e [= <-]; auto].
Qed.

Lemma add_sale_effects (catalogue : dict) (total : float) (sale : value) :
  forallb advisory (fst (add_sale catalogue total sale)) = true
  /\ forall e,
       snd (add_sale catalogue total sale) = Raise e ->
       raised_by_aggregation e = true
       /\ (e = UnicodeEncodeError -> unprintable sale = true).
Proof.
  destruct sale as [| | | | | |d];
    try (split; [reflexivity | intros e [= <-]; split;
                                 [reflexivity | discriminate]]).
  rewrite add_sale_object; unfold add_sale_cases, contains, getitem.
  destruct (negb _ || is_none _); [split; [reflexivity | discriminate]|].
  destruct (to_float _) as [q|e] eqn:Hq.
  - destruct (key_of _) as [k|e] eqn:Hk.
    + destruct (lookup k catalogue) as [price|].
      * destruct (mul_float price q) as [cost|e] eqn:Hm;
          [split; [reflexivity | discriminate]|].
        split; [reflexivity|].
        intros e' [= <-]; apply data_error; eapply mul_float_raises; eauto.
      * destruct (diagnosed_effects
                    (UnknownProduct (field (VDict d) "Product")) total eq_refl)
          as [Hout Hraise].
        split; [exact Hout|].
        intros e He; destruct (Hraise e He) as [-> Hp]; split; [reflexivity|].
        intros _; unfold unprintable; simpl in Hp; rewrite Hp; reflexivity.
    + split; [reflexivity|].
      intros e' [= <-]; rewrite (key_of_raises _ _ Hk).
      split; [reflexivity | discriminate].
  - destruct (to_float_raises _ _ Hq) as [-> | He].
    + destruct (diagnosed_effects
                  (InvalidQuantity (field (VDict d) "Product")
                     (field (VDict d) "Quantity")) total eq_refl)
        as [Hout Hraise].
      split; [exact Hout|].
      intros e He; destruct (Hraise e He) as [-> Hp]; split; [reflexivity|].
      intros _; unfold unprintable; simpl in Hp; rewrite Hp; reflexivity.
    + replace (isinstance e ValueError) with false
        by (destruct e; try discriminate; reflexivity).
      split; [reflexivity | intros e' [= <-]; apply data_error; exact He].
Qed.

Lemma aggregate_effects (catalogue : dict) (sales : list value)
    (total : float) :
  forallb advisory (fst (for_in sales (add_sale catalogue) total)) = true
  /\ forall e,
       snd (for_in sales (add_sale catalogue) total) = Raise e ->
       raised_by_aggregation e = true
       /\ (e = UnicodeEncodeError -> existsb unprintable sales = true).
Proof.
  revert total; induction sales as [|sale sales IH]; intros total.
  - split; [reflexivity | discriminate].
  - rewrite for_in_io_cons.
    destruct (add_sale_effects catalogue total sale) as [Hout Hraise].
    destruct (add_sale catalogue total sale) as [out [total'|e]].
    + destruct (IH total') as [Hout' Hraise'].
      destruct (for_in sales (add_sale catalogue) total') as [out' r].
      simpl in *; rewrite forallb_app, Hout, Hout'; split; [reflexivity|].
      intros e He; destruct (Hraise' e He) as [Hk Hu]; split; [exact Hk|].
      intros E; rewrite (Hu E); apply orb_true_r.
    + simpl in *; split; [exact Hout|].
      intros e' He; destruct (Hraise e' He) as [Hk Hu]; split; [exact Hk|].
      intros E; rewrite (Hu E); reflexivity.
Qed.

Lemma aggregation_effects
    (catalogue : dict) (sales_record : value) :
  forallb advisory (trace (compute_total_sales catalogue sales_record)) = true
  /\ forall e,
       snd (compute_total_sales catalogue sales_record) = Raise e ->
       raised_by_aggregation e = true
       /\ (e = UnicodeEncodeError ->
           exists sales,
             sales_record = VList sales /\ existsb unprintable sales = true).
Proof.
  unfold compute_total_sales, trace.
  destruct sales_record as [| | | |s|sales|d];
    try (simpl; split; [reflexivity|];
         intros e [= <-]; split; [reflexivity | discriminate]).
  - destruct s as [|c s]; simpl;
      (split; [reflexivity|]); [discriminate|].
    intros e [= <-]; split; [reflexivity | discriminate].
  - pose proof (aggregate_effects catalogue sales fzero) as [Hout Hraise].
    simpl; destruct (for_in sales (add_sale catalogue) fzero) as [out r].
    split; [exact Hout|].
    intros e He; destruct (Hraise e He) as [Hk Hu]; split; [exact Hk|].
    intros E; exists sales; auto.
  - destruct d as [|[k v] d]; [split; [reflexivity | discriminate]|].
    destruct k; simpl; (split; [reflexivity|]);
      intros e [= <-]; (split; [reflexivity | discriminate]).
Qed.

(** X12.  Whatever the catalogue and whatever JSON value is given as the
    sales record, [compute_total_sales] does nothing to the outside but
    print diagnostics of its three kinds (it opens no file and prints no
    report), and when it raises, the exception is an [AttributeError], a
    [TypeError], an [OverflowError] or a [UnicodeEncodeError]; the last
    comes from a diagnostic that cannot be printed, and only when the
    sales record is an array with a record whose Product or Quantity is
    a string that holds a surrogate code point.  A [KeyError] never
    leaves the call, and no other [ValueError]. *)
Theorem compute_total_sales_effects
    (catalogue : dict) (sales_record : value) :
  forallb advisory (trace (compute_total_sales catalogue sales_record)) = true
  /\ forall e,
       snd (compute_total_sales catalogue sales_record) = Raise e ->
       raised_by_aggregation e = true
       /\ (e = UnicodeEncodeError ->
           exists sales,
             sales_record = VList sales /\ existsb unprintable sales = true).
Proof. apply aggregation_effects. Qed.

(** X13.  A document that is not an array is iterated over all the same.
    An empty object or an empty string gives [create_price_catalogue] an
    empty catalogue and [compute_total_sales] the total 0.0; any other
    object or string makes both raise [AttributeError] at its first key
    or character, which has no [get] method; a number, a boolean or null
    makes both raise [TypeError].  Nothing is printed. *)
Theorem not_array_documents (catalogue : dict) (document : value) :
  is_array document = false ->
  create_price_catalogue document
  = match not_array_outcome document with
    | Ok _ => Ok []
    | Raise e => Raise e
    end
  /\ compute_total_sales catalogue document
     = match not_array_outcome document with
       | Ok _ => ([], Ok fzero)
       | Raise e => ([], Raise e)
       end.
Proof.
  destruct document as [| | | |s| |d]; try discriminate; intros _;
    try (split; reflexivity).
  - destruct s; split; reflexivity.
  - destruct d as [|[k v] d]; [split; reflexivity|].
    destruct k; split; reflexivity.
Qed.

Lemma not_array_documents_witness :
  create_price_catalogue (product (VStr "Apple") (VFloat f2_5))
  = Raise AttributeError
  /\ compute_total_sales apples (sale (VStr "Apple") (VInt 4))
     = ([], Raise AttributeError).
Proof.
  split.
  - apply (proj1 (not_array_documents apples
                    (product (VStr "Apple") (VFloat f2_5)) eq_refl)).
  - apply (proj2 (not_array_documents apples
                    (sale (VStr "Apple") (VInt 4)) eq_refl)).
Defined.

End AggregationProperties.


(** ** Further properties of [load_json_file] and [main] *)

Section RunProperties.
Import Examples Behaviour.

(** X14.  Under a file name that [open] takes and [print] can show,
    and on a file other than one that is not UTF-8, one nested deeper
    than the decoder goes and one with an integer longer than it
    converts, [load_json_file] opens the file, returns what the document
    decodes to without printing, or else prints one diagnostic and
    returns None; the diagnostic tells the failures apart: the not-found
    message for a missing file (although [FileNotFoundError] is an
    [OSError] too), the invalid-format message for text that is not
    JSON, and the message for unexpected errors, with the error, for
    another operating-system failure.  Under a name that [open] does not
    take and on each of the three kinds of file set aside, the loader
    raises; and whenever it raises, it has opened the file and printed
    nothing, and the exception is a [UnicodeDecodeError], a
    [RecursionError], a [UnicodeEncodeError] or another [ValueError]. *)
Theorem load_json_file_outcome (fs : filesystem) (filename : str) :
  (openable filename = true -> encodable filename = true ->
   handled (fs filename) = true ->
   exists diagnostics,
     load_json_file fs filename
     = (OpenRead filename :: map Print diagnostics,
        Ok match read_json (fs filename) with
           | Ok v => v
           | Raise _ => VNone
           end)
     /\ (is_ok (read_json (fs filename)) = true -> diagnostics = [])
     /\ (fs filename = Missing -> diagnostics = [FileNotFound filename])
     /\ (read_json (fs filename) = Raise JSONDecodeError ->
         diagnostics = [InvalidJson filename])
     /\ (fs filename = Unreadable ->
         diagnostics = [UnexpectedReadError filename OSError]))
  /\ (openable filename = false \/ handled (fs filename) = false ->
      exists e, snd (load_json_file fs filename) = Raise e)
  /\ (forall e,
        snd (load_json_file fs filename) = Raise e ->
        load_json_file fs filename = ([OpenRead filename], Raise e)
        /\ raised_by_loading e = true).
Proof.
  split; [|split].
  - unfold openable; rewrite andb_true_iff, negb_true_iff.
    intros [He Hn] Hp H.
    rewrite load_json_file_cases, He, Hn; unfold answered; rewrite Hp.
    destruct (fs filename); try discriminate; simpl;
      [ exists [FileNotFound filename]
      | exists [UnexpectedReadError filename OSError]
      | exists [InvalidJson filename]
      | exists []
      | exists [InvalidJson filename]
      | exists [InvalidJson filename] ];
      repeat split; intros; try discriminate; reflexivity.
  - rewrite load_json_file_cases; unfold openable, answered.
    destruct (fs_encodable filename); simpl; [|eauto].
    destruct (has_nul filename); simpl; [eauto|].
    intros [H | H]; [discriminate|].
    destruct (fs filename); try discriminate; simpl; eauto.
  - intros e He.
    destruct (load_json_file fs filename) as [out r] eqn:Hload.
    simpl in He; subst r.
    destruct (load_json_file_raises fs filename out e Hload) as [-> Hk].
    auto.
Qed.

Lemma load_json_file_outcome_witness :
  (exists diagnostics,
     load_json_file (files missing_prices_run) "prices.json"
     = (OpenRead "prices.json" :: map Print diagnostics, Ok VNone)
     /\ diagnostics = [FileNotFound "prices.json"])
  /\ exists e,
       snd (load_json_file (two_files TooDeep Missing) "prices.json")
       = Raise e.
Proof.
  split.
  - destruct (proj1 (load_json_file_outcome (files missing_prices_run)
                       "prices.json") eq_refl eq_refl eq_refl)
      as [diagnostics [Hload [_ [Hmissing _]]]].
    exists diagnostics; split; [exact Hload | apply Hmissing; reflexivity].
  - apply (proj1 (proj2 (load_json_file_outcome (two_files TooDeep Missing)
                           "prices.json"))).
    right; reflexivity.
Defined.

Lemma main_run (w : world) :
  List.length (argv w) = 3%nat ->
  main w =
  match load_json_file (files w) (argument w 1) with
  | (out1, Raise e) => (out1, Raise e)
  | (out1, Ok product_list) =>
      match load_json_file (files w) (argument w 2) with
      | (out2, Raise e) => ((out1 ++ out2)%list, Raise e)
      | (out2, Ok sales_record) =>
          ((out1 ++ out2
            ++ fst (after_loading w product_list sales_record))%list,
           snd (after_loading w product_list sales_record))
      end
  end.
Proof.
  intros Hargs.
  destruct (load_json_file (files w) (argument w 1)) as [out1 [v1|e1]] eqn:H1.
  - destruct (load_json_file (files w) (argument w 2))
      as [out2 [v2|e2]] eqn:H2.
    + apply main_loaded; assumption.
    + eapply main_second_raises; eassumption.
  - apply main_first_raises; assumption.
Qed.

Lemma after_loading_run (w : world) (product_list sales_record : value) :
  after_loading w product_list sales_record =
  if is_none product_list || is_none sales_record
  then ([], Raise (SystemExit 1))
  else
    match create_price_catalogue product_list with
    | Raise e => ([], Raise e)
    | Ok catalogue =>
        match compute_total_sales catalogue sales_record with
        | (out, Raise e) => (out, Raise e)
        | (out, Ok total) =>
            ((out ++ closing w total)%list, Ok (written w total))
        end
    end.
Proof.
  unfold after_loading, closing, written, report_of.
  destruct (is_none product_list || is_none sales_record); [reflexivity|].
  destruct (create_price_catalogue product_list) as [catalogue|e];
    [|reflexivity].
  cbn [bind io_monad lift].
  destruct (compute_total_sales catalogue sales_record) as [out [total|e]];
    [|reflexivity].
  unfold open_and_write, print, printable, try_except, emit, raise.
  cbn [bind io_monad ret].
  destruct (on_write w "SalesResults.txt"); reflexivity.
Qed.

Lemma written_result_file (w : world) (total : float) :
  written w total "SalesResults.txt" = result_file w total.
Proof.
  unfold written, after_write, result_file.
  destruct (on_write w "SalesResults.txt"); reflexivity.
Qed.

Lemma written_elsewhere (w : world) (total : float) (name : str) :
  name <> "SalesResults.txt" -> written w total name = files w name.
Proof.
  intros Hn; unfold written, after_write, update.
  destruct (str_eqb name "SalesResults.txt") eqn:E.
  - apply str_eqb_eq in E; contradiction.
  - destruct (on_write w "SalesResults.txt"); cbv beta; rewrite ?E;
      reflexivity.
Qed.

(** X15.  From the files to the report.  With two arguments that
    [open] takes, a price file that holds an array of JSON objects (title
    not an array or object, retained prices numeric) and a sales file
    that holds an array of well-shaped sale records (JSON objects,
    Product not an array or object, Quantity absent, null, a boolean, a
    float, a string or an integer within the range of floats, no string
    of the two with a surrogate code point), the run opens the price
    file, then the sales file, prints the diagnostics of the aggregation,
    then the report, whose total is the sum over the sale records under
    the catalogue built from the price file and whose time is the
    difference of the two clock readings, and then opens SalesResults.txt
    for writing.  The file is left holding that same report; or, when it
    cannot be opened, the write error is printed and the file is left as
    it was; or, when it is opened and the write fails, the write error
    is printed and the file is left truncated.  No other file is
    changed. *)
Theorem main_reports_the_sum (w : world) (products sales : list value) :
  List.length (argv w) = 3%nat ->
  openable (argument w 1) = true ->
  openable (argument w 2) = true ->
  files w (argument w 1) = Json (VList products) ->
  files w (argument w 2) = Json (VList sales) ->
  forallb priced_product products = true ->
  forallb sale_like sales = true ->
  exists catalogue diagnostics,
    create_price_catalogue (VList products) = Ok catalogue
    /\ forallb advisory diagnostics = true
    /\ main w
       = (([OpenRead (argument w 1); OpenRead (argument w 2)]
           ++ diagnostics
           ++ closing w (sum_of_sales catalogue sales))%list,
          Ok (written w (sum_of_sales catalogue sales)))
    /\ files_after w "SalesResults.txt"
       = result_file w (sum_of_sales catalogue sales)
    /\ forall name : str,
         name <> "SalesResults.txt" -> files_after w name = files w name.
Proof.
  intros Hargs Ho1 Ho2 Hp Hs Hproducts Hsales.
  assert (Hlike : forallb product_like products = true).
  { rewrite forallb_forall in *; intros x Hx.
    specialize (Hproducts x Hx); unfold priced_product in Hproducts.
    apply andb_true_iff in Hproducts; tauto. }
  destruct (build_total products [] Hlike) as [catalogue Hbuild].
  pose proof (build_priced products [] catalogue Hproducts eq_refl Hbuild)
    as Hpriced.
  destruct (aggregate_sound catalogue sales fzero Hpriced Hsales)
    as [out [Htotal Hout]].
  assert (Hmain : main w
    = (([OpenRead (argument w 1); OpenRead (argument w 2)]
        ++ out ++ closing w (sum_of_sales catalogue sales))%list,
       Ok (written w (sum_of_sales catalogue sales)))).
  { rewrite (main_run w Hargs).
    rewrite (load_json_file_json _ _ _ Ho1 Hp).
    rewrite (load_json_file_json _ _ _ Ho2 Hs).
    rewrite after_loading_run; simpl orb; cbv iota.
    rewrite create_price_catalogue_list, Hbuild.
    rewrite compute_total_sales_list, Htotal; reflexivity. }
  exists catalogue, out; split; [exact Hbuild|]; split; [exact Hout|].
  split; [exact Hmain|].
  unfold files_after; rewrite Hmain; simpl snd; split.
  - apply written_result_file.
  - intros name Hn; apply written_elsewhere; exact Hn.
Qed.

Lemma main_reports_the_sum_witness :
  (exists diagnostics,
     main assorted_run
     = (([OpenRead "prices.json"; OpenRead "sales.json"]
         ++ diagnostics
         ++ closing assorted_run (sum_of_sales apples assorted))%list,
        Ok (written assorted_run (sum_of_sales apples assorted))))
  /\ exists catalogue,
       files_after full_disk_run "SalesResults.txt"
       = result_file full_disk_run (sum_of_sales catalogue assorted).
Proof.
  split.
  - destruct (main_reports_the_sum assorted_run apple_list assorted)
      as [catalogue [diagnostics [Hbuild [_ [Hmain _]]]]]; try reflexivity.
    exists diagnostics.
    assert (E : Ok apples = Ok catalogue) by exact Hbuild.
    injection E as ->; exact Hmain.
  - destruct (main_reports_the_sum full_disk_run apple_list assorted)
      as [catalogue [_ [_ [_ [_ [Hfile _]]]]]]; try reflexivity.
    exists catalogue; exact Hfile.
Defined.

Lemma create_price_catalogue_raises (product_list : value) (e : exn) :
  create_price_catalogue product_list = Raise e -> raised_by_data e = true.
Proof.
  unfold create_price_catalogue.
  destruct (iter product_list) as [l|e'] eqn:Hiter; simpl.
  - destruct (forallb buildable l) eqn:Hall.
    + destruct (build_buildable l [] Hall) as [c ->]; discriminate.
    + destruct (first_not_buildable l Hall)
        as [pre [p [post [-> [Hpre Hp]]]]].
      rewrite (build_stops pre post p [] Hpre Hp).
      intros [= <-]; destruct (is_object p); reflexivity.
  - intros [= <-]; destruct product_list; simpl in Hiter;
      try discriminate; injection Hiter as <-; reflexivity.
Qed.

Lemma noted_loads (fs : filesystem) (filename : str) :
  forallb noted (fst (load_json_file fs filename)) = true.
Proof.
  pose proof (load_json_file_trace fs filename) as H.
  rewrite forallb_forall in *; intros e He; unfold noted.
  rewrite (H e He); reflexivity.
Qed.

Lemma noted_advisory (out : list event) :
  forallb advisory out = true -> forallb noted out = true.
Proof.
  rewrite !forallb_forall; intros H e He; unfold noted.
  rewrite (H e He); apply orb_true_r.
Qed.

Lemma exit_code_raise {A : Type} (out : list event) (e : exn) :
  e = SystemExit 1 \/ raised_by_loading e = true
  \/ raised_by_aggregation e = true ->
  exit_code (A := A) (out, Raise e) = 1.
Proof.
  intros [-> | [H | H]]; try reflexivity;
    destruct e; try discriminate; reflexivity.
Qed.

Lemma file_io_loads (fs : filesystem) (filename : str) :
  filter is_file_io (fst (load_json_file fs filename)) = [OpenRead filename].
Proof.
  rewrite load_json_file_cases; unfold answered.
  destruct (negb _); [reflexivity|].
  destruct (has_nul _); [reflexivity|].
  destruct (fs filename); try reflexivity;
    destruct (encodable filename); reflexivity.
Qed.

Lemma file_io_advisory (out : list event) :
  forallb advisory out = true -> filter is_file_io out = [].
Proof.
  induction out as [|e out IH]; simpl; [reflexivity|].
  rewrite andb_true_iff; intros [He Hout]; rewrite (IH Hout).
  destruct e; [reflexivity | discriminate | discriminate].
Qed.

Lemma file_io_closing (w : world) (total : float) :
  filter is_file_io (closing w total) = [OpenWrite "SalesResults.txt"].
Proof.
  unfold closing; destruct (on_write w "SalesResults.txt"); reflexivity.
Qed.

(** How a run ends: either it reaches the report, and ends as [closing]
    says, having opened the two input files before, or it ends with an
    exception, having shown nothing but what loading and the aggregation
    print and opened no file but the input files. *)
Lemma main_outcome (w : world) :
  (exists before total,
     forallb noted before = true
     /\ filter is_file_io before
        = [OpenRead (argument w 1); OpenRead (argument w 2)]
     /\ main w = ((before ++ closing w total)%list, Ok (written w total)))
  \/ (exists e,
        snd (main w) = Raise e
        /\ forallb noted (trace (main w)) = true
        /\ begins (filter is_file_io (trace (main w)))
             [OpenRead (argument w 1); OpenRead (argument w 2)]
        /\ (e = SystemExit 1 \/ raised_by_loading e = true
            \/ raised_by_aggregation e = true)).
Proof.
  destruct (Nat.eq_dec (List.length (argv w)) 3) as [Hargs|Hargs].
  - rewrite (main_run w Hargs); unfold trace, begins.
    pose proof (noted_loads (files w) (argument w 1)) as N1.
    pose proof (noted_loads (files w) (argument w 2)) as N2.
    pose proof (file_io_loads (files w) (argument w 1)) as F1.
    pose proof (file_io_loads (files w) (argument w 2)) as F2.
    destruct (load_json_file (files w) (argument w 1))
      as [out1 [v1|e1]] eqn:H1; simpl in N1, F1.
    + destruct (load_json_file (files w) (argument w 2))
        as [out2 [v2|e2]] eqn:H2; simpl in N2, F2.
      * rewrite after_loading_run.
        destruct (is_none v1 || is_none v2).
        { right; exists (SystemExit 1); simpl.
          rewrite app_nil_r, forallb_app, filter_app, N1, N2, F1, F2.
          repeat split; auto; exists []; reflexivity. }
        destruct (create_price_catalogue v1) as [catalogue|e] eqn:Hc.
        2:{ right; exists e; simpl.
            rewrite app_nil_r, forallb_app, filter_app, N1, N2, F1, F2.
            destruct (data_error e False
                        (create_price_catalogue_raises v1 e Hc)) as [Hk _].
            repeat split; auto; exists []; reflexivity. }
        destruct (aggregation_effects catalogue v2) as [A R].
        unfold trace in A.
        destruct (compute_total_sales catalogue v2) as [out [total|e]].
        { left; exists (out1 ++ out2 ++ out)%list, total; simpl in *.
          rewrite !forallb_app, !filter_app, N1, N2, F1, F2.
          rewrite (noted_advisory out A), (file_io_advisory out A).
          rewrite <- !app_assoc; auto. }
        { right; exists e; simpl in *.
          rewrite !forallb_app, !filter_app, N1, N2, F1, F2.
          rewrite (noted_advisory out A), (file_io_advisory out A).
          destruct (R e eq_refl) as [Hk _].
          repeat split; auto; exists []; reflexivity. }
      * right; exists e2; simpl.
        rewrite forallb_app, filter_app, N1, N2, F1, F2.
        destruct (load_json_file_raises _ _ _ _ H2) as [_ Hk].
        repeat split; auto; exists []; reflexivity.
    + right; exists e1; simpl.
      rewrite N1, F1.
      destruct (load_json_file_raises _ _ _ _ H1) as [_ Hk].
      repeat split; auto; exists [OpenRead (argument w 2)]; reflexivity.
  - right; exists (SystemExit 1); rewrite (main_usage w Hargs); simpl.
    repeat split; auto.
    exists [OpenRead (argument w 1); OpenRead (argument w 2)]; reflexivity.
Qed.

Lemma noted_not_report (out : list event) :
  forallb noted out = true -> existsb is_report out = false.
Proof.
  induction out as [|e out IH]; simpl; [reflexivity|].
  rewrite andb_true_iff; intros [He Hout]; rewrite (IH Hout).
  destruct e as [[]| |]; try reflexivity; discriminate.
Qed.



(** X17.  In every run the exit code is 0 or 1, and it is 0 exactly
    when the run printed the report: a run that ends with code 1 has
    printed no report, and a run that prints the report cannot fail
    afterwards, not even when the result file cannot be written. *)
Theorem main_exit_code_and_report (w : world) :
  (exit_code (main w) = 0 \/ exit_code (main w) = 1)
  /\ (exit_code (main w) = 0
      <-> existsb is_report (trace (main w)) = true).
Proof.
  destruct (main_outcome w) as
    [[before [total [Hb [_ Hmain]]]] | [e [Hraise [Hnoted [_ He]]]]].
  - rewrite Hmain; unfold exit_code, trace; simpl.
    split; [left; reflexivity|].
    split; [intros _ | reflexivity].
    rewrite existsb_app; unfold closing; simpl; apply orb_true_r.
  - rewrite (noted_not_report _ Hnoted).
    destruct (main w) as [out r]; simpl in Hraise; subst r.
    rewrite (exit_code_raise out e He).
    split; [right; reflexivity | split; discriminate].
Qed.

(** X18.  The files a run opens, in order.  A run that exits with code
    0 has opened the first argument for reading, then the second
    argument for reading, then SalesResults.txt for writing, and nothing
    else.  A run that exits with code 1 has opened nothing, or the first
    argument for reading, or the first and then the second, and no file
    for writing.  So the second argument is never opened before the
    first, and the result file never before both.  The three names need
    not be three paths: a run given SalesResults.txt as an argument reads
    it and then writes it. *)
Theorem main_file_io (w : world) :
  (exit_code (main w) = 0
   /\ filter is_file_io (trace (main w))
      = [OpenRead (argument w 1); OpenRead (argument w 2);
         OpenWrite "SalesResults.txt"])
  \/ (exit_code (main w) = 1
      /\ begins (filter is_file_io (trace (main w)))
           [OpenRead (argument w 1); OpenRead (argument w 2)]).
Proof.
  destruct (main_outcome w) as
    [[before [total [_ [Hf Hmain]]]] | [e [Hraise [_ [Hb He]]]]].
  - left; rewrite Hmain; unfold exit_code, trace; simpl fst; simpl snd.
    split; [reflexivity|].
    rewrite filter_app, Hf, file_io_closing; reflexivity.
  - right; split; [|exact Hb].
    destruct (main w) as [out r]; simpl in Hraise; subst r.
    apply exit_code_raise; exact He.
Qed.

(** X19.  With two arguments, whenever the first call of the loader
    returns, be it the document or None after a diagnostic, the run goes
    on to load the sales file: everything both calls of the loader do, a
    diagnostic of the second after a failure of the first included,
    comes before anything else.  When the first call raises, the run
    ends there with that exception, and the second call is not made. *)
Theorem main_loads_sales_file (w : world) :
  List.length (argv w) = 3%nat ->
  (is_ok (snd (load_json_file (files w) (argument w 1))) = true ->
   begins (trace (load_json_file (files w) (argument w 1))
           ++ trace (load_json_file (files w) (argument w 2)))
          (trace (main w))
   /\ In (OpenRead (argument w 2)) (trace (main w)))
  /\ (forall e,
        snd (load_json_file (files w) (argument w 1)) = Raise e ->
        main w = ([OpenRead (argument w 1)], Raise e)).
Proof.
  intros Hargs; split.
  - intros Hok.
    assert (Hin : In (OpenRead (argument w 2))
                    (trace (load_json_file (files w) (argument w 2)))).
    { pose proof (file_io_loads (files w) (argument w 2)) as F.
      unfold trace.
      assert (I : In (OpenRead (argument w 2))
                    (filter is_file_io
                       (fst (load_json_file (files w) (argument w 2)))))
        by (rewrite F; left; reflexivity).
      apply filter_In in I; tauto. }
    assert (Hb : begins
                   (trace (load_json_file (files w) (argument w 1))
                    ++ trace (load_json_file (files w) (argument w 2)))
                   (trace (main w))).
    { unfold begins, trace in *; rewrite (main_run w Hargs).
      destruct (load_json_file (files w) (argument w 1))
        as [out1 [v1|e1]] eqn:H1; [|discriminate].
      destruct (load_json_file (files w) (argument w 2))
        as [out2 [v2|e2]]; simpl.
      + exists (fst (after_loading w v1 v2)); rewrite app_assoc; reflexivity.
      + exists []; rewrite app_nil_r; reflexivity. }
    split; [exact Hb|].
    destruct Hb as [rest ->]; apply in_or_app; left; apply in_or_app; auto.
  - intros e He; rewrite (main_run w Hargs).
    destruct (load_json_file (files w) (argument w 1)) as [out r] eqn:Hload.
    simpl in He; subst r.
    destruct (load_json_file_raises _ _ _ _ Hload) as [-> _]; reflexivity.
Qed.

Lemma main_loads_sales_file_witness :
  In (OpenRead "sales.json") (trace (main missing_prices_run))
  /\ main not_utf8_prices_run
     = ([OpenRead "prices.json"], Raise UnicodeDecodeError).
Proof.
  split.
  - apply (proj1 (main_loads_sales_file missing_prices_run eq_refl)).
    reflexivity.
  - apply (proj2 (main_loads_sales_file not_utf8_prices_run eq_refl)).
    reflexivity.
Defined.

End RunProperties.

